(** * chromedriver_updater: a shallow embedding and its properties

    The development follows [src/chrome_scripts/chromedriver_updater.py].
    Python [str] values are Rocq strings whose characters are the code
    points 0..255; on that range [\d] matches exactly '0'..'9',
    [str.isspace] holds of 9-13, 28-32, 133 and 160, and [str.lower] maps
    'A'..'Z' and the Latin-1 capitals 192..222 (215 excepted) 32 places up. *)

From Stdlib Require Import String Ascii List ZArith NArith Bool Lia.
Import ListNotations.
Local Open Scope string_scope.
Local Open Scope list_scope.

(** ** Python string primitives *)

Module PyStr.

Definition code (c : ascii) : N := N_of_ascii c.

Definition isspace (c : ascii) : bool :=
  let n := code c in
  ((9 <=? n) && (n <=? 13) || (28 <=? n) && (n <=? 32)
   || (n =? 133) || (n =? 160))%N.

Definition isdigit (c : ascii) : bool :=
  let n := code c in ((48 <=? n) && (n <=? 57))%N.

Definition lower_char (c : ascii) : ascii :=
  let n := code c in
  if ((65 <=? n) && (n <=? 90)
      || (192 <=? n) && (n <=? 222) && negb (n =? 215))%N
  then ascii_of_N (n + 32) else c.

(** [s.lower()] *)
Fixpoint lower (s : string) : string :=
  match s with
  | EmptyString => EmptyString
  | String c s' => String (lower_char c) (lower s')
  end.

Fixpoint lstrip (s : string) : string :=
  match s with
  | EmptyString => EmptyString
  | String c s' => if isspace c then lstrip s' else s
  end.

Fixpoint rstrip (s : string) : string :=
  match s with
  | EmptyString => EmptyString
  | String c s' =>
      match rstrip s' with
      | EmptyString => if isspace c then EmptyString else String c EmptyString
      | r => String c r
      end
  end.

(** [s.strip()] *)
Definition strip (s : string) : string := rstrip (lstrip s).

(** [s.split()]: the maximal runs of non-whitespace characters. *)
Fixpoint split_ws (s : string) : list string :=
  match s with
  | EmptyString => []
  | String c s' =>
      if isspace c then split_ws s'
      else
        match s' with
        | EmptyString => [String c EmptyString]
        | String c' _ =>
            if isspace c' then String c EmptyString :: split_ws s'
            else
              match split_ws s' with
              | w :: ws => String c w :: ws
              | [] => [String c EmptyString]
              end
        end
  end.

(** [s.split(sep)] for a one-character separator: never the empty list. *)
Fixpoint split (sep : ascii) (s : string) : list string :=
  match s with
  | EmptyString => [EmptyString]
  | String c s' =>
      if Ascii.eqb c sep then EmptyString :: split sep s'
      else
        match split sep s' with
        | w :: ws => String c w :: ws
        | [] => [String c EmptyString]
        end
  end.

(** [sep.join(parts)] *)
Fixpoint join (sep : string) (parts : list string) : string :=
  match parts with
  | [] => EmptyString
  | [w] => w
  | w :: ws => w ++ sep ++ join sep ws
  end.

(** [l[-1]]; [None] stands for the IndexError of an empty list. *)
Fixpoint last_item {A : Type} (l : list A) : option A :=
  match l with
  | [] => None
  | [x] => Some x
  | _ :: l' => last_item l'
  end.

(** [l[0]] *)
Definition first_item {A : Type} (l : list A) : option A :=
  match l with
  | [] => None
  | x :: _ => Some x
  end.

(** [s.startswith(c)], [s.endswith(c)] for one character. *)
Definition startswith (c : ascii) (s : string) : bool :=
  match s with
  | String a _ => Ascii.eqb a c
  | EmptyString => false
  end.

Fixpoint endswith (c : ascii) (s : string) : bool :=
  match s with
  | EmptyString => false
  | String a EmptyString => Ascii.eqb a c
  | String _ s' => endswith c s'
  end.

(** [needle in s] *)
Fixpoint contains (needle s : string) : bool :=
  String.prefix needle s
  || match s with
     | EmptyString => false
     | String _ s' => contains needle s'
     end.

(** every character satisfies [p] *)
Fixpoint all_chars (p : ascii -> bool) (s : string) : bool :=
  match s with
  | EmptyString => true
  | String c s' => p c && all_chars p s'
  end.

(** [sep] does not occur in [s] *)
Definition sep_free (sep : ascii) (s : string) : bool :=
  all_chars (fun c => negb (Ascii.eqb c sep)) s.

(** [int(s)] on a string, base 10.  Around the number [int] drops the
    characters 9-13, 32, 133 and 160; a sign may lead; the digits may be
    grouped by single underscores; more than 4300 digits are refused.
    [None] stands for the ValueError. *)
Definition int_space (c : ascii) : bool :=
  let n := code c in
  ((9 <=? n) && (n <=? 13) || (n =? 32) || (n =? 133) || (n =? 160))%N.

Fixpoint int_lstrip (s : string) : string :=
  match s with
  | EmptyString => EmptyString
  | String c s' => if int_space c then int_lstrip s' else s
  end.

Fixpoint int_rstrip (s : string) : string :=
  match s with
  | EmptyString => EmptyString
  | String c s' =>
      match int_rstrip s' with
      | EmptyString => if int_space c then EmptyString else String c EmptyString
      | r => String c r
      end
  end.

(** the value and the number of digits of [s], read after the digits
    that gave [acc]; [after_underscore] tells that an underscore came last *)
Fixpoint int_digits (acc : Z) (count : nat) (after_underscore : bool) (s : string)
  : option (Z * nat) :=
  match s with
  | EmptyString => if after_underscore then None else Some (acc, count)
  | String c s' =>
      if isdigit c
      then int_digits (10 * acc + Z.of_N (code c) - 48) (S count) false s'
      else if Ascii.eqb c "_"
           then if after_underscore then None else int_digits acc count true s'
           else None
  end.

Definition int_max_str_digits : nat := 4300.

Definition int_unsigned (s : string) : option Z :=
  match s with
  | String c _ =>
      if isdigit c then
        match int_digits 0 0 false s with
        | Some (v, n) => if (n <=? int_max_str_digits)%nat then Some v else None
        | None => None
        end
      else None
  | EmptyString => None
  end.

Definition int_of_string (s : string) : option Z :=
  match int_rstrip (int_lstrip s) with
  | String "+" body => int_unsigned body
  | String "-" body => option_map Z.opp (int_unsigned body)
  | body => int_unsigned body
  end.

(** [os.path.join(a, b)] of posixpath, two arguments. *)
Definition path_join (a b : string) : string :=
  if startswith "/" b then b
  else if (String.eqb a "" || endswith "/" a)%bool then a ++ b
  else a ++ "/" ++ b.

End PyStr.

(** ** The fragment of [re] the script uses

    A pattern is a sequence of one-character classes, each taken once or
    under [+].  [re.match] anchors at the start of the string only: it
    succeeds as soon as the pattern is exhausted, whatever follows.  [+] is
    greedy and backtracks. *)

Module Re.

Inductive cls := Digit | Lit (c : ascii).

Inductive item := One (k : cls) | Plus (k : cls).

Definition pattern := list item.

Definition in_cls (k : cls) (c : ascii) : bool :=
  match k with
  | Digit => PyStr.isdigit c
  | Lit a => Ascii.eqb c a
  end.

(** zero or more further characters of class [k], as many as possible
    first, then the rest of the pattern *)
Fixpoint more (k : cls) (rest : string -> bool) (s : string) : bool :=
  match s with
  | String c s' => in_cls k c && more k rest s' || rest s
  | EmptyString => rest s
  end.

Fixpoint match_here (p : pattern) : string -> bool :=
  match p with
  | [] => fun _ => true
  | One k :: p' =>
      fun s =>
        match s with
        | String c s' => in_cls k c && match_here p' s'
        | EmptyString => false
        end
  | Plus k :: p' =>
      fun s =>
        match s with
        | String c s' => in_cls k c && more k (match_here p') s'
        | EmptyString => false
        end
  end.

(** [re.match(p, s) is not None] *)
Definition re_match (p : pattern) (s : string) : bool := match_here p s.

(** the strings a prefix of which the pattern describes *)
Fixpoint matches (p : pattern) (s : string) : Prop :=
  match p with
  | [] => True
  | One k :: p' =>
      exists c s', s = String c s' /\ in_cls k c = true /\ matches p' s'
  | Plus k :: p' =>
      exists u s', s = (u ++ s')%string /\ u <> EmptyString
                   /\ PyStr.all_chars (in_cls k) u = true /\ matches p' s'
  end.

End Re.

(** ** [is_valid_version] (lines 33-35) *)

(** [r'\d+\.\d+\.\d+\.\d+'] *)
Definition version_pattern : Re.pattern :=
  [Re.Plus Re.Digit; Re.One (Re.Lit "."); Re.Plus Re.Digit; Re.One (Re.Lit ".");
   Re.Plus Re.Digit; Re.One (Re.Lit "."); Re.Plus Re.Digit].

Definition is_valid_version (chromedriver_version : string) : bool :=
  Re.re_match version_pattern chromedriver_version.

(** ** Parsed JSON, as [resp.json()] returns it

    A dict is kept as its list of items, in iteration order, each key once;
    numbers keep their lexeme, the script never computes with them. *)

#[warnings="-register-all"]
Inductive json :=
| JNull
| JBool (b : bool)
| JNum (lexeme : string)
| JStr (s : string)
| JArr (items : list json)
| JObj (fields : list (string * json)).

Fixpoint lookup {A : Type} (k : string) (fs : list (string * A)) : option A :=
  match fs with
  | [] => None
  | (k', v) :: fs' => if String.eqb k k' then Some v else lookup k fs'
  end.

(** ** Exceptions and results *)

Inductive exn :=
| KeyError (key : string)
| TypeError
| AttributeError
| IndexError
| ValueError
| JSONDecodeError
| FileNotFoundError (path : string)
| PermissionError (path : string)
| OSError (msg : string)
| CalledProcessError (returncode : Z) (output err : string)
| HTTPError (status : Z)
| ConnectionError
| BadZipFile
| RecursionError
| IsADirectoryError (path : string)
| SameFileError.

(** The classes named by the script's [except] clauses.  Every [exn] above
    is an [Exception]. *)
Inductive exn_class := KeyErrorCls | CalledProcessErrorCls | ExceptionCls.

Definition isinstance (e : exn) (c : exn_class) : bool :=
  match c, e with
  | ExceptionCls, _ => true
  | KeyErrorCls, KeyError _ => true
  | CalledProcessErrorCls, CalledProcessError _ _ _ => true
  | _, _ => false
  end.

Inductive outcome (A : Type) :=
| Return (a : A)
| Raise (e : exn).
Arguments Return {A} a.
Arguments Raise {A} e.

Definition of_option {A : Type} (e : exn) (o : option A) : outcome A :=
  match o with
  | Some a => Return a
  | None => Raise e
  end.

(** ** Python operations on parsed JSON *)

(** [v[k]] with a string key *)
Definition getitem (v : json) (k : string) : outcome json :=
  match v with
  | JObj fs => of_option (KeyError k) (lookup k fs)
  | _ => Raise TypeError
  end.

Fixpoint chars (s : string) : list json :=
  match s with
  | EmptyString => []
  | String c s' => JStr (String c EmptyString) :: chars s'
  end.

(** the items a [for] loop over [v] visits *)
Definition iterate (v : json) : outcome (list json) :=
  match v with
  | JArr items => Return items
  | JObj fs => Return (map (fun kv => JStr (fst kv)) fs)
  | JStr s => Return (chars s)
  | _ => Raise TypeError
  end.

(** [v.lower()] exists on strings only, and so does [v.split(sep)] *)
Definition str_lower (v : json) : outcome string :=
  match v with
  | JStr s => Return (PyStr.lower s)
  | _ => Raise AttributeError
  end.

(** ** The log sink *)

Inductive level := INFO | SUCCESS | WARNING | ERROR.

(** An f-string is the list of its literal pieces and interpolated values. *)
Inductive frag :=
| Text (s : string)
| VStr (s : string)
| VInt (n : Z)
| VJson (j : json)
| VExn (e : exn).

Record log_entry := mk_log { lvl : level; msg : list frag }.

(** the piece [f] shows the text [k] *)
Definition frag_mentions (k : string) (f : frag) : bool :=
  match f with
  | Text s => PyStr.contains k s
  | VStr s => PyStr.contains k s
  | _ => false
  end.

Definition mentions (k : string) (m : list frag) : bool :=
  existsb (frag_mentions k) m.

(** ** The host: processes, network, file system *)

Record completed_process := mk_completed {
  returncode : Z;
  stdout : string;
  stderr : string
}.

Record response := mk_response {
  status_code : Z;
  json_body : outcome json;         (* what [resp.json()] gives or raises *)
  content_length : option string;   (* the Content-Length header *)
  chunks : list (list Byte.byte);   (* what [iter_content] yields *)
  stream_error : option exn         (* raised once the chunks are through *)
}.

Class Host (W : Type) := {
  (* run argv to completion; the flag merges stderr into stdout *)
  spawn : list string -> bool -> W -> outcome completed_process * W;
  requests_get : string -> W -> outcome response * W;
  int_of_str : string -> option Z;
  open_wb : string -> W -> outcome unit * W;
  file_write : string -> list Byte.byte -> W -> outcome unit * W;
  zip_extractall : string -> string -> W -> outcome unit * W;
  shutil_copy : string -> string -> W -> outcome unit * W;
  os_chmod : string -> Z -> W -> outcome unit * W
}.

(** ** The script *)

Definition USER_PLATFORM : string := "linux64".

Definition latest_versions_url : string :=
  "https://googlechromelabs.github.io/chrome-for-testing/latest-versions-per-milestone-with-downloads.json".

(** [0o755] *)
Definition mode_0o755 : Z := 7 * 64 + 5 * 8 + 5.

(** line 70 *)
Definition rewritten_url (user_platform download_url : string) : string :=
  PyStr.join "/" (removelast (PyStr.split "/" download_url))
  ++ "/chromedriver-" ++ user_platform ++ ".zip".

(** the loop of lines 65-71: [None] when no entry matched *)
Fixpoint scan_downloads (user_platform : string) (items : list json)
  : outcome (option string) :=
  match items with
  | [] => Return None
  | dict_i :: rest =>
      match getitem dict_i "platform" with
      | Raise e => Raise e
      | Return dict_i_platform =>
          match str_lower dict_i_platform with
          | Raise e => Raise e
          | Return p =>
              if String.eqb p (PyStr.lower user_platform) then
                match getitem dict_i "url" with
                | Raise e => Raise e
                | Return download_url =>
                    match download_url with
                    | JStr u => Return (Some (rewritten_url user_platform u))
                    | _ => Raise AttributeError
                    end
                end
              else scan_downloads user_platform rest
          end
      end
  end.

Definition truthy (v : option string) : bool :=
  match v with
  | Some (String _ _) => true
  | _ => false
  end.

Section Script.

Context {W : Type} {host : Host W}.

(** A computation changes the world, may raise, and emits log entries. *)
Definition M (A : Type) : Type := W -> outcome A * W * list log_entry.

Definition ret {A : Type} (a : A) : M A := fun w => (Return a, w, []).

Definition raise {A : Type} (e : exn) : M A := fun w => (Raise e, w, []).

Definition bind {A B : Type} (m : M A) (f : A -> M B) : M B :=
  fun w =>
    match m w with
    | (Return a, w1, l1) =>
        match f a w1 with
        | (r, w2, l2) => (r, w2, l1 ++ l2)
        end
    | (Raise e, w1, l1) => (Raise e, w1, l1)
    end.

Definition pure {A : Type} (r : outcome A) : M A := fun w => (r, w, []).

Definition call {A : Type} (op : W -> outcome A * W) : M A :=
  fun w => match op w with (r, w1) => (r, w1, []) end.

(** [try: m  except c as e: h e] *)
Definition try_except {A : Type} (m : M A) (c : exn_class) (h : exn -> M A) : M A :=
  fun w =>
    match m w with
    | (Raise e, w1, l1) =>
        if isinstance e c then
          match h e w1 with
          | (r, w2, l2) => (r, w2, l1 ++ l2)
          end
        else (Raise e, w1, l1)
    | done => done
    end.

Definition logger (l : level) (m : list frag) : M unit :=
  fun w => (Return tt, w, [mk_log l m]).

Notation "x <- m ;; k" := (bind m (fun x => k))
  (at level 61, m at next level, right associativity).
Notation "m ;;; k" := (bind m (fun _ => k))
  (at level 61, right associativity).

(** [subprocess.check_output(argv, stderr=subprocess.STDOUT, text=True)] *)
Definition check_output (argv : list string) : M string :=
  p <- call (spawn argv true) ;;
  if (returncode p =? 0)%Z then ret (stdout p)
  else raise (CalledProcessError (returncode p) (stdout p) (stderr p)).

(** [subprocess.run(argv, capture_output=True, text=True, check=True)] *)
Definition run_checked (argv : list string) : M completed_process :=
  p <- call (spawn argv false) ;;
  if (returncode p =? 0)%Z then ret p
  else raise (CalledProcessError (returncode p) (stdout p) (stderr p)).

Definition exn_output (e : exn) : string :=
  match e with
  | CalledProcessError _ out _ => out
  | _ => ""
  end.

Definition exn_stderr (e : exn) : string :=
  match e with
  | CalledProcessError _ _ err => err
  | _ => ""
  end.

(** lines 13-31 *)
Definition get_chrome_version : M (option string) :=
  try_except
    (result <- check_output ["google-chrome"; "--version"] ;;
     version <- pure (of_option IndexError
                        (PyStr.last_item (PyStr.split_ws (PyStr.strip result)))) ;;
     if negb (is_valid_version version) then
       logger ERROR [Text "Invalid Chrome version returned from subprocess: ";
                     VStr version] ;;;
       ret None
     else ret (Some version))
    CalledProcessErrorCls
    (fun e =>
       logger ERROR [Text "Error: "; VStr (PyStr.strip (exn_output e))] ;;;
       ret None).

(** [resp.json()]: the parsed body, or whatever the call raises (a
    [JSONDecodeError] for a body that is not JSON, a [ValueError] for an
    integer of too many digits, a [RecursionError] for too deep a
    nesting, ...) *)
Definition resp_json (resp : response) : outcome json := json_body resp.

(** lines 37-75 *)
Definition get_chromedriver_download_url (chrome_version user_platform : string)
  : M (option string) :=
  resp <- call (requests_get latest_versions_url) ;;
  if negb (status_code resp =? 200)%Z then
    logger ERROR [Text "Resp. status code is not equal to 200. Resp. status code: ";
                  VInt (status_code resp)] ;;;
    ret None
  else
    chromedriver_major_version <-
      pure (of_option IndexError
              (PyStr.first_item (PyStr.split "." chrome_version))) ;;
    found <- try_except
               (doc <- pure (resp_json resp) ;;
                d <- pure (getitem doc "milestones") ;;
                ret (Some d))
               KeyErrorCls
               (fun _ =>
                  logger WARNING
                    [Text "'milestones' key does not exist inside 'latest_versions_url' JSON response."] ;;;
                  ret None) ;;
    match found with
    | None => ret None
    | Some milestones_dict =>
        found <- try_except
                   (d <- pure (getitem milestones_dict chromedriver_major_version) ;;
                    ret (Some d))
                   KeyErrorCls
                   (fun _ =>
                      logger WARNING
                        [Text "Major version key "; VStr chromedriver_major_version;
                         Text " does not exist inside 'latest_versions_url' JSON response."] ;;;
                      ret None) ;;
        match found with
        | None => ret None
        | Some major_version_dict =>
            found <- try_except
                       (d <- pure (getitem major_version_dict "downloads") ;;
                        c <- pure (getitem d "chrome") ;;
                        ret (Some c))
                       KeyErrorCls
                       (fun _ =>
                          logger WARNING
                            [Text "'downloads' or 'chrome' key(s) does not exist inside 'latest_versions_url' JSON response."] ;;;
                          ret None) ;;
            match found with
            | None => ret None
            | Some downloads_list_of_dicts =>
                items <- pure (iterate downloads_list_of_dicts) ;;
                download_url <- pure (scan_downloads user_platform items) ;;
                if negb (truthy download_url) then
                  logger ERROR
                    [Text "Was unable to retrieve chromedriver download URL for Chrome major version '";
                     VJson major_version_dict;
                     Text "' and user platform '"; VStr user_platform; Text "'"] ;;;
                  ret download_url
                else ret download_url
            end
        end
    end.

(** [resp.raise_for_status()] *)
Definition raise_for_status (resp : response) : outcome unit :=
  if ((400 <=? status_code resp) && (status_code resp <? 600))%Z
  then Raise (HTTPError (status_code resp))
  else Return tt.

(** the loop of lines 84-87; the progress bar is not modelled *)
Fixpoint write_chunks (fn : string) (cs : list (list Byte.byte)) : M unit :=
  match cs with
  | [] => ret tt
  | chunk :: cs' =>
      match chunk with
      | [] => write_chunks fn cs'
      | _ => call (file_write fn chunk) ;;; write_chunks fn cs'
      end
  end.

(** lines 77-90 *)
Definition download_chromedriver (chromedriver_download_url : string) : M string :=
  fn <- pure (of_option IndexError
                (PyStr.last_item (PyStr.split "/" chromedriver_download_url))) ;;
  resp <- call (requests_get chromedriver_download_url) ;;
  pure (raise_for_status resp) ;;;
  call (open_wb fn) ;;;
  (match content_length resp with
   | Some h => pure (of_option ValueError (int_of_str h))
   | None => ret 0%Z
   end) ;;;
  write_chunks fn (chunks resp) ;;;
  (match stream_error resp with
   | Some e => raise e
   | None => ret tt
   end) ;;;
  ret fn.

(** lines 92-104; the [False] of line 100 is [None] here, the caller
    tests the result for truth only *)
Definition extract_zipped_file (zip_fn : string) : M (option string) :=
  ok <- try_except
          (call (zip_extractall zip_fn "") ;;; ret true)
          ExceptionCls
          (fun e =>
             logger ERROR [Text "Something went wrong while extracting file: "; VExn e] ;;;
             ret false) ;;
  if ok : bool then
    zip_fn_wo_ext <- pure (of_option IndexError
                             (PyStr.first_item (PyStr.split "." zip_fn))) ;;
    ret (Some (PyStr.path_join zip_fn_wo_ext "chromedriver"))
  else ret None.

(** lines 106-119 *)
Definition find_chromedriver_location : M (option string) :=
  try_except
    (result <- run_checked ["which"; "chromedriver"] ;;
     ret (Some (PyStr.strip (stdout result))))
    CalledProcessErrorCls
    (fun e =>
       logger ERROR [Text "Error: "; VStr (PyStr.strip (exn_stderr e))] ;;;
       ret None).

(** lines 121-132 *)
Definition move_extracted_chromedriver
    (extracted_chromedriver_fp os_chromedriver_location : string) : M bool :=
  try_except
    (call (shutil_copy extracted_chromedriver_fp os_chromedriver_location) ;;;
     call (os_chmod os_chromedriver_location mode_0o755) ;;;
     ret true)
    ExceptionCls
    (fun e =>
       logger ERROR [Text "Error moving Chromedriver: "; VExn e] ;;;
       ret false).

Definition the_str (v : option string) : string :=
  match v with
  | Some s => s
  | None => ""
  end.

(** lines 134-161 *)
Definition main (user_platform : string) : M unit :=
  current_chrome_version <- get_chrome_version ;;
  if negb (truthy current_chrome_version) then ret tt else
  chromedriver_download_url <-
    get_chromedriver_download_url (the_str current_chrome_version) user_platform ;;
  if negb (truthy chromedriver_download_url) then ret tt else
  logger INFO [Text "Starting to download chromedriver (version: ";
               VStr (the_str current_chrome_version);
               Text ", platform: "; VStr user_platform; Text ")"] ;;;
  downloaded_fn <- download_chromedriver (the_str chromedriver_download_url) ;;
  if negb (truthy (Some downloaded_fn)) then
    logger ERROR [Text "Failed to download chromedriver"] ;;; ret tt
  else
  logger SUCCESS [Text "Successfully downloaded chromedriver"] ;;;
  extracted_chromedriver_fp <- extract_zipped_file downloaded_fn ;;
  if negb (truthy extracted_chromedriver_fp) then ret tt else
  os_chromedriver_location <- find_chromedriver_location ;;
  if negb (truthy os_chromedriver_location) then ret tt else
  final_status <- move_extracted_chromedriver (the_str extracted_chromedriver_fp)
                                              (the_str os_chromedriver_location) ;;
  if final_status : bool then
    logger SUCCESS [Text "Chromedriver successfully updated for your OS."]
  else ret tt.

End Script.

(** ** The words of the specification *)

Module Spec.

(** a decimal integer component *)
Definition number (s : string) : bool :=
  negb (String.eqb s "") && PyStr.all_chars PyStr.isdigit s.

(** "a strict 4-integer dotted pattern": four decimal integer components
    separated by dots, and nothing else *)
Definition dotted4 (s : string) : bool :=
  match PyStr.split "." s with
  | [a; b; c; d] => number a && number b && number c && number d
  | _ => false
  end.

Definition ascii_fold_char (c : ascii) : ascii :=
  let n := PyStr.code c in
  if ((65 <=? n) && (n <=? 90))%N then ascii_of_N (n + 32) else c.

Fixpoint ascii_fold (s : string) : string :=
  match s with
  | EmptyString => EmptyString
  | String c s' => String (ascii_fold_char c) (ascii_fold s')
  end.

(** equal up to ASCII case *)
Definition eq_ascii_case (a b : string) : Prop := ascii_fold a = ascii_fold b.

(** "archive filename without extension": the text before the last dot *)
Definition without_extension (fn : string) : string :=
  match PyStr.split "." fn with
  | [_] => fn
  | parts => PyStr.join "." (removelast parts)
  end.

(** the platform and the URL of a download entry, when it has them *)
Definition entry_platform (j : json) : option string :=
  match j with
  | JObj fs =>
      match lookup "platform" fs with
      | Some (JStr p) => Some p
      | _ => None
      end
  | _ => None
  end.

Definition entry_url (j : json) : option string :=
  match j with
  | JObj fs =>
      match lookup "url" fs with
      | Some (JStr u) => Some u
      | _ => None
      end
  | _ => None
  end.

(** an entry the scan passes over: its platform is a string other than
    the wanted one, case folded as [str.lower] does *)
Definition passed_over (user_platform : string) (j : json) : Prop :=
  exists p, entry_platform j = Some p
            /\ PyStr.lower p <> PyStr.lower user_platform.

(** the member [k] of an object *)
Definition field (k : string) (j : json) : option json :=
  match j with
  | JObj fs => lookup k fs
  | _ => None
  end.

(** the downloads list of a major version, in a document shaped
    [{"milestones": {major: {"downloads": {"chrome": [...]}}}}] *)
Definition download_entries (doc : json) (major : string) : option (list json) :=
  match field "milestones" doc with
  | Some ms =>
      match field major ms with
      | Some mv =>
          match field "downloads" mv with
          | Some dl =>
              match field "chrome" dl with
              | Some (JArr items) => Some items
              | _ => None
              end
          | None => None
          end
      | None => None
      end
  | None => None
  end.

(** the leading component of a dotted version *)
Definition major_of (version : string) : string :=
  match PyStr.split "." version with
  | m :: _ => m
  | [] => EmptyString
  end.

End Spec.

(** The metadata request of line 39, made in [w], is answered with status
    200 and the JSON body [doc], and leaves the host in [w1]. *)
Definition fetched {W : Type} {host : Host W} (w w1 : W) (doc : json) : Prop :=
  exists resp,
    requests_get latest_versions_url w = (Return resp, w1)
    /\ status_code resp = 200%Z /\ json_body resp = Return doc.

(** ** A small host to run the script on

    Commands are found by name, URLs by exact text, archives by file
    name; files carry their bytes and permission bits. *)

Module Sim.

Record file := mk_file { content : list Byte.byte; mode : Z }.

Record world := mk_world {
  procs : list (string * completed_process);
  web : list (string * response);
  archives : list (string * list (string * list Byte.byte));
  files : list (string * file)
}.

Fixpoint upsert {A : Type} (k : string) (v : A) (l : list (string * A))
  : list (string * A) :=
  match l with
  | [] => [(k, v)]
  | (k', v') :: l' =>
      if String.eqb k k' then (k, v) :: l' else (k', v') :: upsert k v l'
  end.

Definition with_files (w : world) (fs : list (string * file)) : world :=
  mk_world (procs w) (web w) (archives w) fs.

Definition sim_spawn (argv : list string) (merge : bool) (w : world)
  : outcome completed_process * world :=
  match argv with
  | [] => (Raise IndexError, w)
  | cmd :: _ =>
      match lookup cmd (procs w) with
      | None => (Raise (FileNotFoundError cmd), w)
      | Some p =>
          if merge
          then (Return (mk_completed (returncode p) (stdout p ++ stderr p) ""), w)
          else (Return p, w)
      end
  end.

Definition sim_get (url : string) (w : world) : outcome response * world :=
  (of_option ConnectionError (lookup url (web w)), w).

Definition sim_int (s : string) : option Z := PyStr.int_of_string s.

Definition mode_0o644 : Z := 6 * 64 + 4 * 8 + 4.

(** the names that are directories whatever the files are *)
Definition is_directory (fn : string) : bool :=
  String.eqb fn "." || String.eqb fn ".." || PyStr.endswith "/" fn.

Definition sim_open_wb (fn : string) (w : world) : outcome unit * world :=
  if String.eqb fn "" then (Raise (FileNotFoundError fn), w)
  else if is_directory fn then (Raise (IsADirectoryError fn), w)
  else
    let m := match lookup fn (files w) with
             | Some f => mode f
             | None => mode_0o644
             end in
    (Return tt, with_files w (upsert fn (mk_file [] m) (files w))).

Definition sim_write (fn : string) (bs : list Byte.byte) (w : world)
  : outcome unit * world :=
  match lookup fn (files w) with
  | None => (Raise (OSError "closed file"), w)
  | Some f =>
      (Return tt, with_files w (upsert fn (mk_file (content f ++ bs) (mode f)) (files w)))
  end.

Definition sim_extractall (zip_fn dest : string) (w : world) : outcome unit * world :=
  match lookup zip_fn (files w) with
  | None => (Raise (FileNotFoundError zip_fn), w)
  | Some _ =>
      match lookup zip_fn (archives w) with
      | None => (Raise BadZipFile, w)
      | Some entries =>
          (Return tt,
           with_files w
             (fold_left
                (fun fs e => upsert (PyStr.path_join dest (fst e))
                                    (mk_file (snd e) mode_0o644) fs)
                entries (files w)))
      end
  end.

Definition sim_copy (src dst : string) (w : world) : outcome unit * world :=
  match lookup src (files w) with
  | None => (Raise (FileNotFoundError src), w)
  | Some f =>
      if String.eqb src dst then (Raise SameFileError, w)
      else if is_directory dst then (Raise (IsADirectoryError dst), w)
      else (Return tt, with_files w (upsert dst f (files w)))
  end.

(** the bytes of a file, none when it does not exist *)
Definition content_of (w : world) (fn : string) : list Byte.byte :=
  match lookup fn (files w) with
  | Some f => content f
  | None => []
  end.

Definition sim_chmod (p : string) (m : Z) (w : world) : outcome unit * world :=
  match lookup p (files w) with
  | None => (Raise (FileNotFoundError p), w)
  | Some f => (Return tt, with_files w (upsert p (mk_file (content f) m) (files w)))
  end.

#[export] Instance sim_host : Host world := {
  spawn := sim_spawn;
  requests_get := sim_get;
  int_of_str := sim_int;
  open_wb := sim_open_wb;
  file_write := sim_write;
  zip_extractall := sim_extractall;
  shutil_copy := sim_copy;
  os_chmod := sim_chmod
}.

(** the document of the specification's resolver example *)
Definition doc123 : json :=
  JObj [("milestones",
         JObj [("123",
                JObj [("downloads",
                       JObj [("chrome",
                              JArr [JObj [("platform", JStr "Linux64");
                                          ("url", JStr "https://x/123.0.0.0/chrome-linux64.zip")]])])])])].

Definition json_response (j : json) : response :=
  mk_response 200 (Return j) None [] None.

Definition zip_bytes : list Byte.byte := [Byte.x50; Byte.x4b; Byte.x03; Byte.x04].

Definition elf_bytes : list Byte.byte := [Byte.x7f; Byte.x45; Byte.x4c; Byte.x46].

(** a host with Chrome 123 and an installed driver *)
Definition host123 : world :=
  mk_world
    [("google-chrome", mk_completed 0 ("Google Chrome 123.0.6312.58 " ++ String "010" "") "");
     ("which", mk_completed 0 ("/usr/local/bin/chromedriver" ++ String "010" "") "")]
    [(latest_versions_url, json_response doc123);
     ("https://x/123.0.0.0/chromedriver-linux64.zip",
      mk_response 200 (Raise JSONDecodeError) (Some "4") [zip_bytes] None)]
    [("chromedriver-linux64.zip", [("chromedriver-linux64/chromedriver", elf_bytes)])]
    [("/usr/local/bin/chromedriver", mk_file [] mode_0o644)].

(** the same host without the browser *)
Definition host_without_chrome : world :=
  mk_world [("which", mk_completed 0 "/usr/local/bin/chromedriver" "")]
           (web host123) (archives host123) (files host123).

Definition milestone123 (entries : list json) : json :=
  JObj [("milestones",
         JObj [("123", JObj [("downloads", JObj [("chrome", JArr entries)])])])].

Definition host_of_doc (j : json) : world :=
  mk_world (procs host123) [(latest_versions_url, json_response j)] [] [].

(** a download entry without its "platform" key, one without its "url" *)
Definition doc_no_platform : json :=
  milestone123 [JObj [("url", JStr "https://x/123.0.0.0/chrome-linux64.zip")]].

Definition doc_no_url : json :=
  milestone123 [JObj [("platform", JStr "linux64")]].

(** the platform spelled in lower case by the feed *)
Definition doc_lower : json :=
  milestone123 [JObj [("platform", JStr "linux64");
                      ("url", JStr "https://x/123.0.0.0/chrome-linux64.zip")]].

(** two entries for one platform *)
Definition doc_two_matches : json :=
  milestone123
    [JObj [("platform", JStr "mac-arm64"); ("url", JStr "https://x/m/chrome-mac-arm64.zip")];
     JObj [("platform", JStr "LINUX64"); ("url", JStr "https://first/a/chrome.zip")];
     JObj [("platform", JStr "linux64"); ("url", JStr "https://second/b/chrome.zip")]].

(** a matching descriptor behind an entry without "platform" *)
Definition doc_bad_front : json :=
  milestone123
    [JObj [("url", JStr "https://x/m/chrome-mac-arm64.zip")];
     JObj [("platform", JStr "linux64");
           ("url", JStr "https://x/123.0.0.0/chrome-linux64.zip")]].

(** documents with one schema defect each *)
Definition doc_no_milestones : json := JObj [("timestamp", JStr "2024")].

Definition doc_no_major : json :=
  JObj [("milestones", JObj [("122", JObj [])])].

Definition doc_no_downloads : json :=
  JObj [("milestones", JObj [("123", JObj [("version", JStr "123.0.0.0")])])].

Definition doc_no_chrome : json :=
  JObj [("milestones",
         JObj [("123", JObj [("downloads", JObj [("chromedriver", JArr [])])])])].

(** documents where a container is no object *)
Definition doc_array : json := JArr [].

Definition doc_null_milestones : json := JObj [("milestones", JNull)].

(** [which] answers with an empty line *)
Definition host_blank_lookup : world :=
  mk_world
    [("google-chrome", mk_completed 0 "Google Chrome 123.0.6312.58" "");
     ("which", mk_completed 0 (String "010" "") "")]
    (web host123) (archives host123) (files host123).

(** the archive server answers 404 *)
Definition host_404 : world :=
  mk_world (procs host123)
           [(latest_versions_url, json_response doc123);
            ("https://x/123.0.0.0/chromedriver-linux64.zip",
             mk_response 404 (Raise JSONDecodeError) None [] None)]
           [] (files host123).

(** an archive whose base name has a dot *)
Definition host_dotted_archive : world :=
  mk_world (procs host123) []
           [("chromedriver-linux64.v2.zip",
             [("chromedriver-linux64.v2/chromedriver", elf_bytes)])]
           [("chromedriver-linux64.v2.zip", mk_file zip_bytes mode_0o644)].

End Sim.

(** ** What the stages put in the log *)

(** A stage's report of a failure: a warning, or an error that carries a
    detail after its text. *)
Definition report (e : log_entry) : bool :=
  match lvl e with
  | WARNING => true
  | ERROR => (2 <=? length (msg e))%nat
  | _ => false
  end.

(** the three entries [main] writes itself *)
Definition starting_download (version user_platform : string) : log_entry :=
  mk_log INFO [Text "Starting to download chromedriver (version: "; VStr version;
               Text ", platform: "; VStr user_platform; Text ")"].

Definition failed_download : log_entry :=
  mk_log ERROR [Text "Failed to download chromedriver"].

Definition downloaded : log_entry :=
  mk_log SUCCESS [Text "Successfully downloaded chromedriver"].

Definition updated : log_entry :=
  mk_log SUCCESS [Text "Chromedriver successfully updated for your OS."].

(** a computation that never logs *)
Definition silent {W A : Type} (m : M (W := W) A) : Prop :=
  forall w, snd (m w) = [].

(** * Facts about the string primitives *)

Section StringFacts.

Variable sep : ascii.

Lemma split_not_nil (s : string) : PyStr.split sep s <> [].
Proof.
  destruct s as [|c s]; simpl; [discriminate|].
  destruct (Ascii.eqb c sep); [discriminate|].
  destruct (PyStr.split sep s); discriminate.
Qed.

Lemma split_sep_free (s : string) :
  PyStr.sep_free sep s = true -> PyStr.split sep s = [s].
Proof.
  induction s as [|c s IH]; simpl; intros H; [reflexivity|].
  apply andb_true_iff in H. destruct H as [Hc Hs].
  apply negb_true_iff in Hc. rewrite Hc, (IH Hs). reflexivity.
Qed.

Lemma split_app (a b : string) :
  PyStr.split sep (a ++ String sep b) = PyStr.split sep a ++ PyStr.split sep b.
Proof.
  induction a as [|c a IH]; simpl.
  - rewrite Ascii.eqb_refl. reflexivity.
  - destruct (Ascii.eqb c sep); rewrite IH; [reflexivity|].
    destruct (PyStr.split sep a) eqn:E; [|reflexivity].
    exfalso. exact (split_not_nil a E).
Qed.

Lemma join_split (s : string) :
  PyStr.join (String sep "") (PyStr.split sep s) = s.
Proof.
  induction s as [|c s IH]; simpl; [reflexivity|].
  destruct (Ascii.eqb c sep) eqn:Ec.
  - apply Ascii.eqb_eq in Ec. subst c.
    destruct (PyStr.split sep s) eqn:E; [exfalso; exact (split_not_nil s E)|].
    simpl in *. rewrite IH. reflexivity.
  - destruct (PyStr.split sep s) as [|w ws] eqn:E; [exfalso; exact (split_not_nil s E)|].
    destruct ws as [|w' ws]; simpl in *; rewrite <- IH; reflexivity.
Qed.

End StringFacts.

Lemma removelast_snoc {A : Type} (l : list A) (x : A) : removelast (l ++ [x]) = l.
Proof.
  induction l as [|a l IH]; simpl; [reflexivity|].
  destruct (l ++ [x]) eqn:E; [destruct l; discriminate|]. rewrite IH. reflexivity.
Qed.

(** Line 70 keeps the directory of the URL and appends the archive name. *)
Lemma rewritten_url_dir (user_platform dir seg : string) :
  PyStr.sep_free "/" seg = true ->
  rewritten_url user_platform (dir ++ String "/" seg)
  = (dir ++ "/chromedriver-" ++ user_platform ++ ".zip")%string.
Proof.
  intros H. unfold rewritten_url.
  rewrite split_app, (split_sep_free _ _ H), removelast_snoc, join_split.
  reflexivity.
Qed.

(** X21. Line 70 on a URL without any slash: all of its text goes, and
    the result is "/chromedriver-<platform>.zip". *)
Lemma rewritten_url_no_slash (user_platform u : string) :
  PyStr.sep_free "/" u = true ->
  rewritten_url user_platform u = ("/chromedriver-" ++ user_platform ++ ".zip")%string.
Proof.
  intros H. unfold rewritten_url. rewrite (split_sep_free _ _ H). reflexivity.
Qed.

(** A string where [sep] occurs splits at its last occurrence. *)
Lemma last_sep_decompose (sep : ascii) (s : string) :
  PyStr.sep_free sep s = false ->
  exists dir seg, s = (dir ++ String sep seg)%string /\ PyStr.sep_free sep seg = true.
Proof.
  induction s as [|c s IH]; simpl; [discriminate|].
  unfold PyStr.sep_free in *. simpl. intros H.
  destruct (PyStr.all_chars (fun c0 => negb (Ascii.eqb c0 sep)) s) eqn:Es.
  - rewrite andb_true_r in H. apply negb_false_iff, Ascii.eqb_eq in H. subst c.
    exists "", s. split; [reflexivity|assumption].
  - destruct (IH eq_refl) as (dir & seg & -> & Hseg).
    exists (String c dir), seg. split; [reflexivity|assumption].
Qed.

Lemma contains_sep (sep : ascii) (s : string) :
  PyStr.contains (String sep "") s = true -> PyStr.sep_free sep s = false.
Proof.
  unfold PyStr.sep_free.
  induction s as [|c s IH]; simpl; [discriminate|].
  destruct (ascii_dec sep c) as [->|Hne].
  - rewrite Ascii.eqb_refl. reflexivity.
  - simpl. intros H. rewrite (IH H). apply andb_false_r.
Qed.

(** * The matcher and the version pattern *)

Lemma append_assoc (a b c : string) : ((a ++ b) ++ c = a ++ (b ++ c))%string.
Proof. induction a as [|x a IH]; simpl; [reflexivity|now rewrite IH]. Qed.

Lemma append_nil_r (a : string) : (a ++ "")%string = a.
Proof. induction a as [|x a IH]; simpl; [reflexivity|now rewrite IH]. Qed.

Lemma all_chars_app (p : ascii -> bool) (a b : string) :
  PyStr.all_chars p (a ++ b) = PyStr.all_chars p a && PyStr.all_chars p b.
Proof.
  induction a as [|x a IH]; simpl; [reflexivity|].
  rewrite IH. apply andb_assoc.
Qed.

Lemma all_chars_impl (p q : ascii -> bool) (s : string) :
  (forall c, p c = true -> q c = true) ->
  PyStr.all_chars p s = true -> PyStr.all_chars q s = true.
Proof.
  intros Hpq. induction s as [|c s IH]; simpl; [reflexivity|].
  intros H. apply andb_true_iff in H. destruct H as [Hc Hs].
  rewrite (Hpq _ Hc), (IH Hs). reflexivity.
Qed.

Section Matcher.

Variable k : Re.cls.
Variable rest : string -> bool.

Lemma more_sound (s : string) :
  Re.more k rest s = true ->
  exists u s', s = (u ++ s')%string
               /\ PyStr.all_chars (Re.in_cls k) u = true /\ rest s' = true.
Proof.
  induction s as [|c s IH]; simpl; intros H.
  - exists "", "". auto.
  - apply orb_true_iff in H. destruct H as [H|H].
    + apply andb_true_iff in H. destruct H as [Hc Hm].
      destruct (IH Hm) as (u & s' & -> & Hu & Hr).
      exists (String c u), s'. simpl. rewrite Hc, Hu. auto.
    + exists "", (String c s). auto.
Qed.

Lemma more_complete (u s' : string) :
  PyStr.all_chars (Re.in_cls k) u = true -> rest s' = true ->
  Re.more k rest (u ++ s') = true.
Proof.
  induction u as [|c u IH]; simpl; intros Hu Hr.
  - destruct s'; simpl; [assumption|]. rewrite Hr. apply orb_true_r.
  - apply andb_true_iff in Hu. destruct Hu as [Hc Hu].
    rewrite Hc, (IH Hu Hr). reflexivity.
Qed.

End Matcher.

Lemma match_here_matches (p : Re.pattern) :
  forall s, Re.match_here p s = true <-> Re.matches p s.
Proof.
  induction p as [|[k|k] p IH]; intros s; simpl.
  - tauto.
  - destruct s as [|c s]; split.
    + discriminate.
    + intros (c & s' & E & _). discriminate.
    + intros H. apply andb_true_iff in H. destruct H as [Hc Hp].
      exists c, s. rewrite <- IH. auto.
    + intros (c' & s' & E & Hc & Hp). inversion E; subst.
      rewrite Hc. simpl. now apply IH.
  - destruct s as [|c s]; split.
    + discriminate.
    + intros (u & s' & E & Hu & _). destruct u; [congruence|discriminate].
    + intros H. apply andb_true_iff in H. destruct H as [Hc Hm].
      apply more_sound in Hm. destruct Hm as (u & s' & -> & Hu & Hr).
      exists (String c u), s'. simpl. rewrite Hc, Hu.
      repeat split; [discriminate|now apply IH].
    + intros (u & s' & E & Hne & Hu & Hp).
      destruct u as [|c' u]; [congruence|]. simpl in E. inversion E; subst.
      simpl in Hu. apply andb_true_iff in Hu. destruct Hu as [Hc Hu].
      rewrite Hc. simpl. apply more_complete; [assumption|now apply IH].
Qed.

Lemma number_spec (a : string) :
  Spec.number a = true <->
  a <> "" /\ PyStr.all_chars (Re.in_cls Re.Digit) a = true.
Proof.
  unfold Spec.number. simpl. rewrite andb_true_iff, negb_true_iff, String.eqb_neq.
  tauto.
Qed.

Lemma number_dot_free (a : string) :
  Spec.number a = true -> PyStr.sep_free "." a = true.
Proof.
  unfold Spec.number. intros H. apply andb_true_iff in H. destruct H as [_ H].
  revert H. apply all_chars_impl. intros c.
  destruct c as [[] [] [] [] [] [] [] []]; vm_compute; congruence.
Qed.

(** What the code accepts: four numbers joined by dots, then anything. *)
Lemma is_valid_version_iff (s : string) :
  is_valid_version s = true <->
  exists a b c d rest,
    Spec.number a = true /\ Spec.number b = true /\
    Spec.number c = true /\ Spec.number d = true /\
    s = (a ++ "." ++ b ++ "." ++ c ++ "." ++ d ++ rest)%string.
Proof.
  unfold is_valid_version, Re.re_match. rewrite match_here_matches.
  unfold version_pattern. simpl. split.
  - intros (a & s1 & -> & Ha1 & Ha2 & x1 & s2 & -> & Hx1 &
            b & s3 & -> & Hb1 & Hb2 & x2 & s4 & -> & Hx2 &
            c & s5 & -> & Hc1 & Hc2 & x3 & s6 & -> & Hx3 &
            d & s7 & -> & Hd1 & Hd2 & _).
    apply Ascii.eqb_eq in Hx1, Hx2, Hx3. subst.
    exists a, b, c, d, s7. rewrite !number_spec. simpl. auto 10.
  - intros (a & b & c & d & rest & Ha & Hb & Hc & Hd & ->).
    apply number_spec in Ha, Hb, Hc, Hd.
    destruct Ha as [Ha1 Ha2], Hb as [Hb1 Hb2], Hc as [Hc1 Hc2], Hd as [Hd1 Hd2].
    exists a, ("." ++ b ++ "." ++ c ++ "." ++ d ++ rest)%string.
    repeat split; try assumption.
    exists "."%char, (b ++ "." ++ c ++ "." ++ d ++ rest)%string.
    repeat split.
    exists b, ("." ++ c ++ "." ++ d ++ rest)%string.
    repeat split; try assumption.
    exists "."%char, (c ++ "." ++ d ++ rest)%string.
    repeat split.
    exists c, ("." ++ d ++ rest)%string.
    repeat split; try assumption.
    exists "."%char, (d ++ rest)%string.
    repeat split.
    exists d, rest. repeat split; assumption.
Qed.

(** The specification's pattern, written out. *)
Lemma dotted4_iff (s : string) :
  Spec.dotted4 s = true <->
  exists a b c d,
    Spec.number a = true /\ Spec.number b = true /\
    Spec.number c = true /\ Spec.number d = true /\
    s = (a ++ "." ++ b ++ "." ++ c ++ "." ++ d)%string.
Proof.
  unfold Spec.dotted4. split.
  - intros H. pose proof (join_split "." s) as J.
    destruct (PyStr.split "." s) as [|a [|b [|c [|d [|e l]]]]]; try discriminate.
    apply andb_true_iff in H. destruct H as [H Hd].
    apply andb_true_iff in H. destruct H as [H Hc].
    apply andb_true_iff in H. destruct H as [Ha Hb].
    exists a, b, c, d. simpl in J. auto 10.
  - intros (a & b & c & d & Ha & Hb & Hc & Hd & ->).
    simpl. rewrite !split_app.
    rewrite (split_sep_free _ _ (number_dot_free _ Ha)),
            (split_sep_free _ _ (number_dot_free _ Hb)),
            (split_sep_free _ _ (number_dot_free _ Hc)),
            (split_sep_free _ _ (number_dot_free _ Hd)).
    simpl. rewrite Ha, Hb, Hc, Hd. reflexivity.
Qed.

(** Every string of the strict pattern is accepted. *)
Lemma dotted4_accepted (s : string) :
  Spec.dotted4 s = true -> is_valid_version s = true.
Proof.
  rewrite dotted4_iff, is_valid_version_iff.
  intros (a & b & c & d & Ha & Hb & Hc & Hd & ->).
  exists a, b, c, d, "". rewrite append_nil_r. auto 10.
Qed.

(** X1. [is_valid_version] accepts exactly the strings that begin with
    four decimal integers separated by dots, whatever follows. *)
Lemma is_valid_version_prefix (s : string) :
  is_valid_version s = true <->
  exists v rest, Spec.dotted4 v = true /\ s = (v ++ rest)%string.
Proof.
  rewrite is_valid_version_iff. split.
  - intros (a & b & c & d & rest & Ha & Hb & Hc & Hd & ->).
    exists (a ++ "." ++ b ++ "." ++ c ++ "." ++ d)%string, rest. split.
    + apply dotted4_iff. exists a, b, c, d. auto 10.
    + rewrite !append_assoc. reflexivity.
  - intros (v & rest & Hv & ->). apply dotted4_iff in Hv.
    destruct Hv as (a & b & c & d & Ha & Hb & Hc & Hd & ->).
    exists a, b, c, d, rest. rewrite !append_assoc. auto 10.
Qed.

(** * The scan of the downloads list *)

Lemma first_item_split (sep : ascii) (s : string) :
  exists m, PyStr.first_item (PyStr.split sep s) = Some m.
Proof.
  destruct (PyStr.split sep s) as [|m l] eqn:E.
  - exfalso. exact (split_not_nil sep s E).
  - exists m. reflexivity.
Qed.

Lemma last_item_some {A : Type} (l : list A) :
  l <> [] -> exists x, PyStr.last_item l = Some x.
Proof.
  induction l as [|a l IH]; [congruence|]. intros _.
  destruct l as [|b l]; [exists a; reflexivity|].
  destruct IH as [x Hx]; [discriminate|]. exists x. exact Hx.
Qed.

Lemma last_item_split (sep : ascii) (s : string) :
  exists m, PyStr.last_item (PyStr.split sep s) = Some m.
Proof. apply last_item_some, split_not_nil. Qed.

Lemma last_item_snoc {A : Type} (l : list A) (x : A) :
  PyStr.last_item (l ++ [x]) = Some x.
Proof.
  induction l as [|a l IH]; [reflexivity|]. simpl.
  destruct (l ++ [x]) eqn:E; [destruct l; discriminate|]. exact IH.
Qed.

(** The file name of a URL that ends in [/name]. *)
Lemma url_file_name (base name : string) :
  PyStr.sep_free "/" name = true ->
  PyStr.last_item (PyStr.split "/" (base ++ String "/" name)) = Some name.
Proof.
  intros H. rewrite split_app, (split_sep_free _ _ H). apply last_item_snoc.
Qed.

Lemma first_item_major (version : string) :
  PyStr.first_item (PyStr.split "." version) = Some (Spec.major_of version).
Proof.
  unfold Spec.major_of. destruct (PyStr.split "." version) as [|m l] eqn:E.
  - exfalso. exact (split_not_nil _ _ E).
  - reflexivity.
Qed.

Lemma truthy_rewritten (user_platform u : string) :
  truthy (Some (rewritten_url user_platform u)) = true.
Proof.
  unfold rewritten_url.
  destruct (PyStr.join "/" (removelast (PyStr.split "/" u))); reflexivity.
Qed.

Lemma entry_platform_inv (j : json) (p : string) :
  Spec.entry_platform j = Some p ->
  exists fs, j = JObj fs /\ lookup "platform" fs = Some (JStr p).
Proof.
  destruct j as [| | | | |fs]; simpl; try discriminate.
  destruct (lookup "platform" fs) as [[]|] eqn:L; try discriminate.
  intros E. inversion E; subst. eauto.
Qed.

Lemma entry_url_inv (j : json) (u : string) :
  Spec.entry_url j = Some u ->
  exists fs, j = JObj fs /\ lookup "url" fs = Some (JStr u).
Proof.
  destruct j as [| | | | |fs]; simpl; try discriminate.
  destruct (lookup "url" fs) as [[]|] eqn:L; try discriminate.
  intros E. inversion E; subst. eauto.
Qed.

Lemma scan_first_match (user_platform : string) (pre post : list json)
      (d : json) (p u : string) :
  Forall (Spec.passed_over user_platform) pre ->
  Spec.entry_platform d = Some p ->
  PyStr.lower p = PyStr.lower user_platform ->
  Spec.entry_url d = Some u ->
  scan_downloads user_platform (pre ++ d :: post)
  = Return (Some (rewritten_url user_platform u)).
Proof.
  intros Hpre Hp Hm Hu. induction Hpre as [|j pre (q & Hq & Hne) _ IH]; simpl.
  - apply entry_platform_inv in Hp. destruct Hp as (fs & -> & Hp).
    apply entry_url_inv in Hu. destruct Hu as (fs' & E & Hu).
    inversion E; subst fs'. simpl. rewrite Hp. simpl.
    rewrite Hm, String.eqb_refl, Hu. reflexivity.
  - apply entry_platform_inv in Hq. destruct Hq as (fs & -> & Hq).
    simpl. rewrite Hq. simpl.
    apply String.eqb_neq in Hne. rewrite Hne. exact IH.
Qed.

Lemma scan_suffix (user_platform : string) (items : list json) (u : string) :
  scan_downloads user_platform items = Return (Some u) ->
  exists j v, In j items /\ Spec.entry_url j = Some v
              /\ u = rewritten_url user_platform v.
Proof.
  induction items as [|j items IH]; simpl; [discriminate|].
  destruct (getitem j "platform") as [pl|e] eqn:Ep; [|discriminate].
  destruct (str_lower pl) as [p|e]; [|discriminate].
  destruct (String.eqb p (PyStr.lower user_platform)).
  - destruct (getitem j "url") as [v|e] eqn:Ev; [|discriminate].
    destruct v as [| | |v| |]; try discriminate.
    intros E. inversion E; subst. exists j, v. split; [now left|]. split; [|reflexivity].
    destruct j as [| | | | |fs]; try discriminate. simpl in *.
    destruct (lookup "url" fs) as [x|]; simpl in Ev; [|discriminate].
    inversion Ev; subst. reflexivity.
  - intros H. destruct (IH H) as (j' & v & Hin & Hv & ->).
    exists j', v. auto.
Qed.

Lemma lower_char_fold (c : ascii) :
  PyStr.lower_char (Spec.ascii_fold_char c) = PyStr.lower_char c.
Proof. destruct c as [[] [] [] [] [] [] [] []]; reflexivity. Qed.

Lemma lower_fold (s : string) : PyStr.lower (Spec.ascii_fold s) = PyStr.lower s.
Proof.
  induction s as [|c s IH]; simpl; [reflexivity|].
  rewrite lower_char_fold, IH. reflexivity.
Qed.

(** Strings equal up to ASCII case have the same [lower()]. *)
Lemma eq_ascii_case_lower (a b : string) :
  Spec.eq_ascii_case a b -> PyStr.lower a = PyStr.lower b.
Proof.
  unfold Spec.eq_ascii_case. intros E.
  rewrite <- (lower_fold a), <- (lower_fold b), E. reflexivity.
Qed.

(** * The release resolver *)

Lemma getitem_field (k : string) (j v : json) :
  Spec.field k j = Some v -> getitem j k = Return v.
Proof.
  destruct j; simpl; try discriminate. intros ->. reflexivity.
Qed.

Lemma download_entries_inv (doc : json) (major : string) (items : list json) :
  Spec.download_entries doc major = Some items ->
  exists ms mv dl,
    Spec.field "milestones" doc = Some ms /\ Spec.field major ms = Some mv
    /\ Spec.field "downloads" mv = Some dl
    /\ Spec.field "chrome" dl = Some (JArr items).
Proof.
  unfold Spec.download_entries.
  destruct (Spec.field "milestones" doc) as [ms|]; [|discriminate].
  destruct (Spec.field major ms) as [mv|] eqn:E2; [|discriminate].
  destruct (Spec.field "downloads" mv) as [dl|] eqn:E3; [|discriminate].
  destruct (Spec.field "chrome" dl) as [[]|] eqn:E4; try discriminate.
  intros E. inversion E; subst. eauto 10.
Qed.

Ltac run_script :=
  unfold get_chromedriver_download_url, get_chrome_version, download_chromedriver,
    extract_zipped_file, find_chromedriver_location, move_extracted_chromedriver,
    check_output, run_checked, bind, call, pure, ret, raise, try_except, logger,
    resp_json.

Section MonadFacts.

Context {W : Type} {host : Host W}.

Lemma bind_return_inv {A B : Type} (m : M A) (f : A -> M B)
      (w w' : W) (b : B) (l : list log_entry) :
  bind m f w = (Return b, w', l) ->
  exists a w1 l1 l2,
    m w = (Return a, w1, l1) /\ f a w1 = (Return b, w', l2) /\ l = l1 ++ l2.
Proof.
  unfold bind. destruct (m w) as [[[a|e] w1] l1]; [|discriminate].
  destruct (f a w1) as [[r w2] l2] eqn:E. intros H. inversion H; subst.
  exists a, w1, l1, l2. auto.
Qed.

Lemma bind_raise {A B : Type} (m : M A) (f : A -> M B)
      (w w1 : W) (e : exn) (l : list log_entry) :
  m w = (Raise e, w1, l) -> bind m f w = (Raise e, w1, l).
Proof. unfold bind. intros ->. reflexivity. Qed.

Lemma bind_return {A B : Type} (m : M A) (f : A -> M B)
      (w w1 : W) (a : A) :
  m w = (Return a, w1, []) -> bind m f w = f a w1.
Proof.
  unfold bind. intros ->. destruct (f a w1) as [[r w2] l2]. reflexivity.
Qed.

Lemma ret_inv {A : Type} (a b : A) (w w' : W) (l : list log_entry) :
  ret a w = (Return b, w', l) -> a = b /\ w = w' /\ l = [].
Proof. unfold ret. intros H. inversion H. auto. Qed.

Lemma pure_inv {A : Type} (r : outcome A) (b : A) (w w' : W) (l : list log_entry) :
  pure r w = (Return b, w', l) -> r = Return b /\ w = w' /\ l = [].
Proof. unfold pure. intros H. inversion H. auto. Qed.

End MonadFacts.

Tactic Notation "bind_inv" hyp(H) "as" ident(a) ident(Hm) :=
  let w := fresh "w" in
  let l1 := fresh "l" in
  let l2 := fresh "l" in
  let Hl := fresh "Hl" in
  apply bind_return_inv in H;
  destruct H as (a & w & l1 & l2 & Hm & H & Hl).

Tactic Notation "bind_at" hyp(H) "as" ident(a) ident(w) ident(Hm) :=
  let l1 := fresh "l" in
  let l2 := fresh "l" in
  let Hl := fresh "Hl" in
  apply bind_return_inv in H;
  destruct H as (a & w & l1 & l2 & Hm & H & Hl).

Section Resolver.

Context {W : Type} {host : Host W}.
Variables (w w1 : W) (doc : json) (chrome_version user_platform : string).
Hypothesis Hfetch : fetched w w1 doc.

Local Abbreviation resolve :=
  (get_chromedriver_download_url chrome_version user_platform w).

(** With the downloads list in place the outcome is that of the scan. *)
Lemma resolve_scan (ms mv dl lst : json) (items : list json) :
  Spec.field "milestones" doc = Some ms ->
  Spec.field (Spec.major_of chrome_version) ms = Some mv ->
  Spec.field "downloads" mv = Some dl ->
  Spec.field "chrome" dl = Some lst ->
  iterate lst = Return items ->
  resolve =
  match scan_downloads user_platform items with
  | Raise e => (Raise e, w1, [])
  | Return r =>
      (Return r, w1,
       if truthy r then []
       else [mk_log ERROR
               [Text "Was unable to retrieve chromedriver download URL for Chrome major version '";
                VJson mv; Text "' and user platform '"; VStr user_platform;
                Text "'"]])
  end.
Proof.
  destruct Hfetch as (resp & Hget & Hst & Hbody).
  intros H1 H2 H3 H4 H5. run_script.
  rewrite Hget, Hst, first_item_major, Hbody. simpl.
  rewrite (getitem_field _ _ _ H1). simpl.
  rewrite (getitem_field _ _ _ H2). simpl.
  rewrite (getitem_field _ _ _ H3). simpl.
  rewrite (getitem_field _ _ _ H4). simpl.
  rewrite H5.
  destruct (scan_downloads user_platform items) as [r|e]; [|reflexivity].
  destruct (truthy r); reflexivity.
Qed.

Lemma resolve_no_milestones (top : list (string * json)) :
  doc = JObj top -> lookup "milestones" top = None ->
  resolve =
  (Return None, w1,
   [mk_log WARNING
      [Text "'milestones' key does not exist inside 'latest_versions_url' JSON response."]]).
Proof.
  destruct Hfetch as (resp & Hget & Hst & Hbody).
  intros -> H. run_script.
  rewrite Hget, Hst, first_item_major, Hbody. simpl. rewrite H. reflexivity.
Qed.

Lemma resolve_no_major (ms : list (string * json)) :
  Spec.field "milestones" doc = Some (JObj ms) ->
  lookup (Spec.major_of chrome_version) ms = None ->
  resolve =
  (Return None, w1,
   [mk_log WARNING
      [Text "Major version key "; VStr (Spec.major_of chrome_version);
       Text " does not exist inside 'latest_versions_url' JSON response."]]).
Proof.
  destruct Hfetch as (resp & Hget & Hst & Hbody).
  intros H1 H. run_script.
  rewrite Hget, Hst, first_item_major, Hbody. simpl.
  rewrite (getitem_field _ _ _ H1). simpl. rewrite H. reflexivity.
Qed.

Lemma resolve_no_downloads (ms : json) (mv : list (string * json)) :
  Spec.field "milestones" doc = Some ms ->
  Spec.field (Spec.major_of chrome_version) ms = Some (JObj mv) ->
  lookup "downloads" mv = None
  \/ (exists dl, lookup "downloads" mv = Some (JObj dl) /\ lookup "chrome" dl = None) ->
  resolve =
  (Return None, w1,
   [mk_log WARNING
      [Text "'downloads' or 'chrome' key(s) does not exist inside 'latest_versions_url' JSON response."]]).
Proof.
  destruct Hfetch as (resp & Hget & Hst & Hbody).
  intros H1 H2 H. run_script.
  rewrite Hget, Hst, first_item_major, Hbody. simpl.
  rewrite (getitem_field _ _ _ H1). simpl.
  rewrite (getitem_field _ _ _ H2). simpl.
  destruct H as [H|(dl & H & H')]; rewrite H; simpl; [|rewrite H']; reflexivity.
Qed.

(** A key error inside the loop is not caught. *)
Lemma resolve_entry_key_error (items : list json) (k : string) :
  Spec.download_entries doc (Spec.major_of chrome_version) = Some items ->
  scan_downloads user_platform items = Raise (KeyError k) ->
  resolve = (Raise (KeyError k), w1, []).
Proof.
  intros Hd Hs. apply download_entries_inv in Hd.
  destruct Hd as (ms & mv & dl & H1 & H2 & H3 & H4).
  rewrite (resolve_scan ms mv dl (JArr items) items); auto.
  rewrite Hs. reflexivity.
Qed.

End Resolver.

Section ResolverTheorems.

Context {W : Type} {host : Host W}.

(** C2. The metadata document is fetched and the downloads list of the
    major version holds a descriptor [d] whose platform is the configured
    one up to ASCII case, behind entries that the scan passes over.  Then
    resolution succeeds, silently, with the URL of [d] rewritten by line
    70: a URL [dir/seg] becomes [dir/chromedriver-<platform>.zip]. *)
Theorem resolve_matching_descriptor
    (w w1 : W) (doc : json) (chrome_version user_platform : string)
    (pre post : list json) (d : json) (p u : string) :
  fetched w w1 doc ->
  Spec.download_entries doc (Spec.major_of chrome_version)
  = Some (pre ++ d :: post) ->
  Forall (Spec.passed_over user_platform) pre ->
  Spec.entry_platform d = Some p ->
  Spec.eq_ascii_case p user_platform ->
  Spec.entry_url d = Some u ->
  get_chromedriver_download_url chrome_version user_platform w
  = (Return (Some (rewritten_url user_platform u)), w1, [])
  /\ forall dir seg,
       u = (dir ++ String "/" seg)%string ->
       PyStr.sep_free "/" seg = true ->
       rewritten_url user_platform u
       = (dir ++ "/chromedriver-" ++ user_platform ++ ".zip")%string.
Proof.
  intros Hf Hd Hpre Hp Hcase Hu. split.
  - apply download_entries_inv in Hd.
    destruct Hd as (ms & mv & dl & H1 & H2 & H3 & H4).
    rewrite (resolve_scan w w1 doc _ _ Hf ms mv dl (JArr (pre ++ d :: post))
               (pre ++ d :: post)); auto.
    rewrite (scan_first_match _ _ _ _ _ _ Hpre Hp (eq_ascii_case_lower _ _ Hcase) Hu),
      truthy_rewritten.
    reflexivity.
  - intros dir seg -> Hseg. apply rewritten_url_dir. exact Hseg.
Qed.


(** C6. In a fetched document, a missing "milestones" key of the document,
    a missing entry for the major version in the milestones object, and a
    missing "downloads" key of the version's object or "chrome" key of its
    downloads object are each answered with [None] and exactly one
    warning.  The three warnings are the fixed texts below: they differ
    from one another, the first names 'milestones', the second carries
    the major version that was looked up, the third names 'downloads' and
    'chrome'. *)
Theorem schema_defects_reported
    (w w1 : W) (doc : json) (chrome_version user_platform : string) :
  fetched w w1 doc ->
  let major := Spec.major_of chrome_version in
  let resolve := get_chromedriver_download_url chrome_version user_platform w in
  let no_milestones :=
    [Text "'milestones' key does not exist inside 'latest_versions_url' JSON response."] in
  let no_major :=
    [Text "Major version key "; VStr major;
     Text " does not exist inside 'latest_versions_url' JSON response."] in
  let no_downloads :=
    [Text "'downloads' or 'chrome' key(s) does not exist inside 'latest_versions_url' JSON response."] in
  (mentions "'milestones'" no_milestones = true /\ In (VStr major) no_major
   /\ mentions "'downloads'" no_downloads = true
   /\ mentions "'chrome'" no_downloads = true)
  /\ (no_milestones <> no_major /\ no_milestones <> no_downloads
      /\ no_major <> no_downloads)
  /\ (forall top,
         doc = JObj top -> lookup "milestones" top = None ->
         resolve = (Return None, w1, [mk_log WARNING no_milestones]))
  /\ (forall ms,
         Spec.field "milestones" doc = Some (JObj ms) ->
         lookup major ms = None ->
         resolve = (Return None, w1, [mk_log WARNING no_major]))
  /\ (forall ms mv,
         Spec.field "milestones" doc = Some ms ->
         Spec.field major ms = Some (JObj mv) ->
         lookup "downloads" mv = None ->
         resolve = (Return None, w1, [mk_log WARNING no_downloads]))
  /\ (forall ms mv dl,
         Spec.field "milestones" doc = Some ms ->
         Spec.field major ms = Some (JObj mv) ->
         lookup "downloads" mv = Some (JObj dl) ->
         lookup "chrome" dl = None ->
         resolve = (Return None, w1, [mk_log WARNING no_downloads])).
Proof.
  intros Hf major resolve no_milestones no_major no_downloads.
  split; [|split; [|split; [|split; [|split]]]].
  - repeat split; try reflexivity. simpl. auto.
  - repeat split; discriminate.
  - intros top -> H. exact (resolve_no_milestones _ _ _ _ _ Hf top eq_refl H).
  - intros ms H1 H. exact (resolve_no_major _ _ _ _ _ Hf ms H1 H).
  - intros ms mv H1 H2 H.
    exact (resolve_no_downloads _ _ _ _ _ Hf ms mv H1 H2 (or_introl H)).
  - intros ms mv dl H1 H2 H3 H.
    apply (resolve_no_downloads _ _ _ _ _ Hf ms mv H1 H2). right. eauto.
Qed.

(** C9. Whenever resolution returns a URL, that URL ends in
  "/chromedriver-<platform>.zip" with the platform exactly as the caller
  gave it; when the platform has no slash, this is the file name of the
  URL.  The platform text of the matched entry does not enter. *)
Theorem resolved_url_names_configured_platform
    (w w' : W) (chrome_version user_platform u : string) (l : list log_entry) :
  get_chromedriver_download_url chrome_version user_platform w
  = (Return (Some u), w', l) ->
  exists base,
    u = (base ++ "/chromedriver-" ++ user_platform ++ ".zip")%string
    /\ (PyStr.sep_free "/" user_platform = true ->
        PyStr.last_item (PyStr.split "/" u)
        = Some ("chromedriver-" ++ user_platform ++ ".zip")%string).
Proof.
  unfold get_chromedriver_download_url. intros H.
  bind_inv H as resp Hresp. destruct (negb (status_code resp =? 200)%Z).
  { bind_inv H as x Hx. apply ret_inv in H. destruct H as [H _]. discriminate H. }
  bind_inv H as major Hmajor. bind_inv H as found1 H1.
  destruct found1 as [milestones_dict|];
    [|apply ret_inv in H; destruct H as [H _]; discriminate H].
  bind_inv H as found2 H2.
  destruct found2 as [major_version_dict|];
    [|apply ret_inv in H; destruct H as [H _]; discriminate H].
  bind_inv H as found3 H3.
  destruct found3 as [downloads_list_of_dicts|];
    [|apply ret_inv in H; destruct H as [H _]; discriminate H].
  bind_inv H as items Hitems. bind_inv H as download_url Hscan.
  apply pure_inv in Hscan. destruct Hscan as [Hscan _].
  assert (E : download_url = Some u).
  { destruct (negb (truthy download_url)).
    - bind_inv H as x Hx. apply ret_inv in H. tauto.
    - apply ret_inv in H. tauto. }
  subst download_url. apply scan_suffix in Hscan.
  destruct Hscan as (j & v & _ & _ & ->).
  unfold rewritten_url. eexists. split; [reflexivity|].
  intros Hfree. apply url_file_name.
  unfold PyStr.sep_free in *. rewrite !all_chars_app, Hfree. reflexivity.
Qed.

End ResolverTheorems.

Section Stages.

Context {W : Type} {host : Host W}.

(** A failure to launch is no [CalledProcessError]: it leaves
    [get_chrome_version] as it came. *)
Lemma get_chrome_version_launch_failure (w w1 : W) (e : exn) :
  spawn ["google-chrome"; "--version"] true w = (Raise e, w1) ->
  isinstance e CalledProcessErrorCls = false ->
  get_chrome_version w = (Raise e, w1, []).
Proof.
  intros Hs He. run_script. rewrite Hs, He. reflexivity.
Qed.

(** A non-zero exit is reported and answered with [None]. *)
Lemma get_chrome_version_nonzero_exit (w w1 : W) (p : completed_process) :
  spawn ["google-chrome"; "--version"] true w = (Return p, w1) ->
  returncode p <> 0%Z ->
  get_chrome_version w
  = (Return None, w1,
     [mk_log ERROR [Text "Error: "; VStr (PyStr.strip (stdout p))]]).
Proof.
  intros Hs Hrc. run_script. rewrite Hs.
  apply Z.eqb_neq in Hrc. rewrite Hrc. reflexivity.
Qed.

(** After a reported failure of stage 1 nothing else is run. *)
Lemma main_stops_after_stage1 (user_platform : string) (w w1 : W)
      (l : list log_entry) :
  get_chrome_version w = (Return None, w1, l) ->
  main user_platform w = (Return tt, w1, l).
Proof.
  intros H. unfold main, bind. rewrite H. simpl.
  rewrite app_nil_r. reflexivity.
Qed.

Lemma main_raises_with_stage1 (user_platform : string) (w w1 : W)
      (e : exn) (l : list log_entry) :
  get_chrome_version w = (Raise e, w1, l) ->
  main user_platform w = (Raise e, w1, l).
Proof. intros H. unfold main. apply bind_raise. exact H. Qed.

(** A 4xx or 5xx answer to the archive request leaves
    [download_chromedriver] as an [HTTPError]. *)
Lemma download_http_error (url : string) (w w1 : W) (resp : response) :
  requests_get url w = (Return resp, w1) ->
  (400 <= status_code resp < 600)%Z ->
  download_chromedriver url w = (Raise (HTTPError (status_code resp)), w1, []).
Proof.
  intros Hg Hs. run_script.
  destruct (last_item_split "/" url) as [fn ->]. simpl. rewrite Hg. unfold raise_for_status.
  replace (400 <=? status_code resp)%Z with true by (symmetry; apply Z.leb_le; lia).
  replace (status_code resp <? 600)%Z with true by (symmetry; apply Z.ltb_lt; lia).
  reflexivity.
Qed.

(** After a successful extraction the path is built from the text before
    the first dot of the archive name. *)
Lemma extract_path (zip_fn : string) (w w1 : W) :
  zip_extractall zip_fn "" w = (Return tt, w1) ->
  exists stem,
    PyStr.first_item (PyStr.split "." zip_fn) = Some stem
    /\ extract_zipped_file zip_fn w
       = (Return (Some (PyStr.path_join stem "chromedriver")), w1, []).
Proof.
  intros He. destruct (first_item_split "." zip_fn) as [stem Hs].
  exists stem. split; [assumption|].
  run_script. rewrite He. simpl. rewrite Hs. reflexivity.
Qed.

(** Where the base name has no dot, that text is the name without its
    extension. *)
Lemma extract_path_plain (stem ext : string) (w w1 : W) :
  PyStr.sep_free "." stem = true ->
  zip_extractall (stem ++ String "." ext) "" w = (Return tt, w1) ->
  extract_zipped_file (stem ++ String "." ext) w
  = (Return (Some (PyStr.path_join stem "chromedriver")), w1, []).
Proof.
  intros Hfree He. destruct (extract_path _ _ _ He) as (s & Hs & ->).
  rewrite split_app, (split_sep_free _ _ Hfree) in Hs. simpl in Hs.
  inversion Hs; subst. reflexivity.
Qed.

(** An extraction that fails is reported and answered with [None]. *)
Lemma extract_failure (zip_fn : string) (w w1 : W) (e : exn) :
  zip_extractall zip_fn "" w = (Raise e, w1) ->
  extract_zipped_file zip_fn w
  = (Return None, w1,
     [mk_log ERROR [Text "Something went wrong while extracting file: "; VExn e]]).
Proof. intros He. run_script. rewrite He. reflexivity. Qed.

(** C8. The installer copies [source] onto [target], then sets the mode
  of [target] to 0o755, whose bits read rwxr-xr-x and nothing above.  It
  returns [True] exactly when both steps succeed; an error of either
  step is logged and answered with [False], and nothing is raised. *)
Theorem install_copies_then_sets_mode (source target : string) (w : W) :
  map (Z.testbit mode_0o755) [8; 7; 6; 5; 4; 3; 2; 1; 0]%Z
  = [true; true; true; true; false; true; true; false; true]
  /\ Z.shiftr mode_0o755 9 = 0%Z
  /\ match shutil_copy source target w with
     | (Raise e, w1) =>
         move_extracted_chromedriver source target w
         = (Return false, w1,
            [mk_log ERROR [Text "Error moving Chromedriver: "; VExn e]])
     | (Return _, w1) =>
         match os_chmod target mode_0o755 w1 with
         | (Raise e, w2) =>
             move_extracted_chromedriver source target w
             = (Return false, w2,
                [mk_log ERROR [Text "Error moving Chromedriver: "; VExn e]])
         | (Return _, w2) =>
             move_extracted_chromedriver source target w = (Return true, w2, [])
         end
     end.
Proof.
  split; [reflexivity|]. split; [reflexivity|]. run_script.
  destruct (shutil_copy source target w) as [[u|e] w1]; [|reflexivity].
  destruct (os_chmod target mode_0o755 w1) as [[u'|e] w2]; reflexivity.
Qed.

End Stages.

Import Sim.

(** C1. The specification has every string outside the strict pattern
    rejected, those with text after a valid four-integer prefix included.
    The string "1.2.3.4abc" is not of the strict pattern, and
    [is_valid_version] accepts it: [re.match] does not look at what
    follows the match.  ([dotted4_accepted] and [is_valid_version_prefix]
    above give the whole picture.) *)
Theorem prefix_match_accepts_trailing_text :
  Spec.dotted4 "1.2.3.4abc" = false /\ is_valid_version "1.2.3.4abc" = true.
Proof. split; reflexivity. Qed.

(** C3. The specification has every missing key reported and answered
    with a failure value.  For a download entry without "platform", and for a
    matching entry without "url", the [KeyError] of lines 67 and 69 leaves
    [get_chromedriver_download_url] uncaught and unreported. *)
Theorem entry_key_errors_escape :
  get_chromedriver_download_url "123.0.6312.58" "linux64" (host_of_doc doc_no_platform)
  = (Raise (KeyError "platform"), host_of_doc doc_no_platform, [])
  /\ get_chromedriver_download_url "123.0.6312.58" "linux64" (host_of_doc doc_no_url)
     = (Raise (KeyError "url"), host_of_doc doc_no_url, []).
Proof. split; reflexivity. Qed.

(** C4. The specification has a browser that cannot be launched answered
    with a reported process failure.  On a host without the executable the
    [FileNotFoundError] of line 16 is not a [CalledProcessError]: it
    leaves [get_chrome_version], and [main], uncaught and unreported. *)
Theorem missing_browser_escapes :
  get_chrome_version host_without_chrome
  = (Raise (FileNotFoundError "google-chrome"), host_without_chrome, [])
  /\ main USER_PLATFORM host_without_chrome
     = (Raise (FileNotFoundError "google-chrome"), host_without_chrome, []).
Proof.
  assert (H : get_chrome_version host_without_chrome
              = (Raise (FileNotFoundError "google-chrome"), host_without_chrome, [])).
  { apply get_chrome_version_launch_failure; reflexivity. }
  split; [exact H|]. apply main_raises_with_stage1. exact H.
Qed.

(** C5. The specification has a non-success answer to the archive request
    returned as a failure value.  On status 404 the [HTTPError] of line 81
    leaves [download_chromedriver], and [main], uncaught. *)
Theorem http_error_escapes :
  download_chromedriver "https://x/123.0.0.0/chromedriver-linux64.zip" host_404
  = (Raise (HTTPError 404), host_404, [])
  /\ fst (fst (main USER_PLATFORM host_404)) = Raise (HTTPError 404).
Proof.
  split.
  - apply (download_http_error _ host_404 host_404
             (mk_response 404 (Raise JSONDecodeError) None [] None)); [reflexivity|simpl; lia].
  - reflexivity.
Qed.

(** Installing on the small host: the target gets the bytes of the source
    and mode rwxr-xr-x; a missing source is reported. *)
Example install_on_sim :
  let w := mk_world [] [] []
             [("chromedriver-linux64/chromedriver", mk_file elf_bytes mode_0o644);
              ("/usr/local/bin/chromedriver", mk_file [] mode_0o644)] in
  let '(r, w', l) := move_extracted_chromedriver "chromedriver-linux64/chromedriver"
                        "/usr/local/bin/chromedriver" w in
  r = Return true /\ l = []
  /\ lookup "/usr/local/bin/chromedriver" (files w') = Some (mk_file elf_bytes 493).
Proof. repeat split. Qed.

Example install_missing_source :
  let w := mk_world [] [] [] [("/usr/local/bin/chromedriver", mk_file [] mode_0o644)] in
  move_extracted_chromedriver "chromedriver-linux64/chromedriver"
    "/usr/local/bin/chromedriver" w
  = (Return false, w,
     [mk_log ERROR [Text "Error moving Chromedriver: ";
                    VExn (FileNotFoundError "chromedriver-linux64/chromedriver")]]).
Proof. reflexivity. Qed.

(** The whole pipeline on a host with Chrome 123. *)
Example pipeline_example :
  let '(r, w', l) := main USER_PLATFORM host123 in
  r = Return tt
  /\ lookup "/usr/local/bin/chromedriver" (files w') = Some (mk_file elf_bytes 493)
  /\ last l (mk_log INFO []) = mk_log SUCCESS [Text "Chromedriver successfully updated for your OS."].
Proof. repeat split. Qed.

(** C7. The specification has the archive name without its extension,
    also when the base name has dots.  For "chromedriver-linux64.v2.zip" line
    102 keeps the text before the first dot and the path returned is
    "chromedriver-linux64/chromedriver", not
    "chromedriver-linux64.v2/chromedriver". *)
Theorem first_dot_cuts_the_name :
  fst (fst (extract_zipped_file "chromedriver-linux64.v2.zip" host_dotted_archive))
  = Return (Some "chromedriver-linux64/chromedriver")
  /\ PyStr.path_join (Spec.without_extension "chromedriver-linux64.v2.zip") "chromedriver"
     = "chromedriver-linux64.v2/chromedriver".
Proof. split; reflexivity. Qed.

(** The resolver example of the specification. *)
Example resolve_example_123 :
  get_chromedriver_download_url "123.0.6312.58" "linux64" host123
  = (Return (Some "https://x/123.0.0.0/chromedriver-linux64.zip"), host123, []).
Proof. reflexivity. Qed.

Lemma resolve_matching_descriptor_witness :
  get_chromedriver_download_url "123.0.6312.58" "linux64" host123
  = (Return (Some (rewritten_url "linux64" "https://x/123.0.0.0/chrome-linux64.zip")),
     host123, [])
  /\ forall dir seg,
       "https://x/123.0.0.0/chrome-linux64.zip" = (dir ++ String "/" seg)%string ->
       PyStr.sep_free "/" seg = true ->
       rewritten_url "linux64" "https://x/123.0.0.0/chrome-linux64.zip"
       = (dir ++ "/chromedriver-" ++ "linux64" ++ ".zip")%string.
Proof.
  apply (resolve_matching_descriptor host123 host123 doc123 "123.0.6312.58" "linux64"
           [] []
           (JObj [("platform", JStr "Linux64");
                  ("url", JStr "https://x/123.0.0.0/chrome-linux64.zip")])
           "Linux64").
  - exists (json_response doc123). repeat split.
  - reflexivity.
  - constructor.
  - reflexivity.
  - reflexivity.
  - reflexivity.
Defined.

(** C2 as the specification words it does not hold.  Of two descriptors of
    the configured platform the second is not the one whose URL comes
    back; and a descriptor behind an entry without "platform" is never
    reached. *)
Lemma matching_descriptor_not_always_resolved :
  (let d := JObj [("platform", JStr "linux64"); ("url", JStr "https://second/b/chrome.zip")] in
   Spec.download_entries doc_two_matches "123"
   = Some [JObj [("platform", JStr "mac-arm64"); ("url", JStr "https://x/m/chrome-mac-arm64.zip")];
           JObj [("platform", JStr "LINUX64"); ("url", JStr "https://first/a/chrome.zip")];
           d]
   /\ Spec.entry_platform d = Some "linux64"
   /\ Spec.eq_ascii_case "linux64" "linux64"
   /\ Spec.entry_url d = Some "https://second/b/chrome.zip"
   /\ fst (fst (get_chromedriver_download_url "123.0.6312.58" "linux64"
                  (host_of_doc doc_two_matches)))
      <> Return (Some "https://second/b/chromedriver-linux64.zip"))
  /\ (let d := JObj [("platform", JStr "linux64");
                     ("url", JStr "https://x/123.0.0.0/chrome-linux64.zip")] in
      Spec.download_entries doc_bad_front "123"
      = Some [JObj [("url", JStr "https://x/m/chrome-mac-arm64.zip")]; d]
      /\ Spec.entry_platform d = Some "linux64"
      /\ Spec.eq_ascii_case "linux64" "linux64"
      /\ get_chromedriver_download_url "123.0.6312.58" "linux64"
           (host_of_doc doc_bad_front)
         = (Raise (KeyError "platform"), host_of_doc doc_bad_front, [])).
Proof.
  split.
  - repeat split. vm_compute. discriminate.
  - repeat split.
Qed.


Lemma resolved_url_names_configured_platform_witness :
  get_chromedriver_download_url "123.0.6312.58" "Linux64" (host_of_doc doc_lower)
  = (Return (Some "https://x/123.0.0.0/chromedriver-Linux64.zip"),
     host_of_doc doc_lower, [])
  /\ exists base,
       "https://x/123.0.0.0/chromedriver-Linux64.zip"
       = (base ++ "/chromedriver-" ++ "Linux64" ++ ".zip")%string
       /\ (PyStr.sep_free "/" "Linux64" = true ->
           PyStr.last_item (PyStr.split "/" "https://x/123.0.0.0/chromedriver-Linux64.zip")
           = Some ("chromedriver-" ++ "Linux64" ++ ".zip")%string).
Proof.
  split; [reflexivity|].
  apply (resolved_url_names_configured_platform
           (host_of_doc doc_lower) (host_of_doc doc_lower)
           "123.0.6312.58" "Linux64" _ []).
  reflexivity.
Defined.

Lemma schema_defects_reported_witness :
  get_chromedriver_download_url "123.0.6312.58" "linux64" (host_of_doc doc_no_milestones)
  = (Return None, host_of_doc doc_no_milestones,
     [mk_log WARNING
        [Text "'milestones' key does not exist inside 'latest_versions_url' JSON response."]])
  /\ get_chromedriver_download_url "123.0.6312.58" "linux64" (host_of_doc doc_no_major)
     = (Return None, host_of_doc doc_no_major,
        [mk_log WARNING
           [Text "Major version key "; VStr "123";
            Text " does not exist inside 'latest_versions_url' JSON response."]])
  /\ get_chromedriver_download_url "123.0.6312.58" "linux64" (host_of_doc doc_no_downloads)
     = (Return None, host_of_doc doc_no_downloads,
        [mk_log WARNING
           [Text "'downloads' or 'chrome' key(s) does not exist inside 'latest_versions_url' JSON response."]])
  /\ get_chromedriver_download_url "123.0.6312.58" "linux64" (host_of_doc doc_no_chrome)
     = (Return None, host_of_doc doc_no_chrome,
        [mk_log WARNING
           [Text "'downloads' or 'chrome' key(s) does not exist inside 'latest_versions_url' JSON response."]]).
Proof.
  assert (F : forall j, fetched (host_of_doc j) (host_of_doc j) j).
  { intros j. exists (json_response j). repeat split. }
  split; [|split; [|split]].
  - destruct (schema_defects_reported _ _ _ "123.0.6312.58" "linux64" (F doc_no_milestones))
      as (_ & _ & H & _).
    exact (H _ eq_refl eq_refl).
  - destruct (schema_defects_reported _ _ _ "123.0.6312.58" "linux64" (F doc_no_major))
      as (_ & _ & _ & H & _).
    exact (H _ eq_refl eq_refl).
  - destruct (schema_defects_reported _ _ _ "123.0.6312.58" "linux64" (F doc_no_downloads))
      as (_ & _ & _ & _ & H & _).
    exact (H _ _ eq_refl eq_refl eq_refl).
  - destruct (schema_defects_reported _ _ _ "123.0.6312.58" "linux64" (F doc_no_chrome))
      as (_ & _ & _ & _ & _ & H).
    exact (H _ _ _ eq_refl eq_refl eq_refl eq_refl).
Defined.

(** C6 as the specification words it does not hold for every document.
    An array has no "milestones" key, and a null has no entry for the
    major version; the lookup raises a [TypeError], which the handlers of
    lines 49 and 55 do not catch, and nothing is reported. *)
Lemma non_object_containers_escape :
  (Spec.field "milestones" doc_array = None
   /\ get_chromedriver_download_url "123.0.6312.58" "linux64" (host_of_doc doc_array)
      = (Raise TypeError, host_of_doc doc_array, []))
  /\ (Spec.field "milestones" doc_null_milestones = Some JNull
      /\ Spec.field "123" JNull = None
      /\ get_chromedriver_download_url "123.0.6312.58" "linux64"
           (host_of_doc doc_null_milestones)
         = (Raise TypeError, host_of_doc doc_null_milestones, [])).
Proof. repeat split. Qed.


(** * Further facts about the stages *)

Lemma lstrip_blank (s : string) :
  PyStr.all_chars PyStr.isspace s = true -> PyStr.lstrip s = "".
Proof.
  induction s as [|c s IH]; simpl; [reflexivity|].
  intros H. apply andb_true_iff in H. destruct H as [Hc Hs].
  rewrite Hc. exact (IH Hs).
Qed.

Lemma strip_blank (s : string) :
  PyStr.all_chars PyStr.isspace s = true -> PyStr.strip s = "".
Proof. intros H. unfold PyStr.strip. rewrite (lstrip_blank _ H). reflexivity. Qed.

Lemma rstrip_cons (c : ascii) (s : string) :
  PyStr.isspace c = false ->
  exists r, PyStr.rstrip (String c s) = String c r.
Proof.
  intros Hc. simpl. destruct (PyStr.rstrip s).
  - rewrite Hc. eauto.
  - eauto.
Qed.

Lemma rstrip_idem (s : string) : PyStr.rstrip (PyStr.rstrip s) = PyStr.rstrip s.
Proof.
  induction s as [|c s IH]; simpl; [reflexivity|].
  destruct (PyStr.rstrip s) as [|d r] eqn:E.
  - destruct (PyStr.isspace c) eqn:Hc; simpl; [reflexivity|]. rewrite Hc. reflexivity.
  - simpl in *. rewrite IH. reflexivity.
Qed.

Lemma lstrip_head (s : string) :
  PyStr.lstrip s = "" \/
  exists c t, PyStr.lstrip s = String c t /\ PyStr.isspace c = false.
Proof.
  induction s as [|c s IH]; simpl; [now left|].
  destruct (PyStr.isspace c) eqn:Hc; [exact IH|]. right. eauto.
Qed.

(** [strip] leaves nothing to strip. *)
Lemma strip_idem (s : string) : PyStr.strip (PyStr.strip s) = PyStr.strip s.
Proof.
  unfold PyStr.strip.
  destruct (lstrip_head s) as [->|(c & t & -> & Hc)]; [reflexivity|].
  destruct (rstrip_cons c t Hc) as [r Hr]. rewrite Hr.
  assert (L : PyStr.lstrip (String c r) = String c r) by (simpl; now rewrite Hc).
  rewrite L, <- Hr. apply rstrip_idem.
Qed.

Lemma endswith_sep_free (c : ascii) (s : string) :
  PyStr.sep_free c s = true -> PyStr.endswith c s = false.
Proof.
  unfold PyStr.sep_free.
  induction s as [|a s IH]; simpl; [reflexivity|].
  intros H. apply andb_true_iff in H. destruct H as [Ha Hs].
  destruct s; [now apply negb_true_iff in Ha|]. exact (IH Hs).
Qed.

Lemma sep_free_app (c : ascii) (a b : string) :
  PyStr.sep_free c (a ++ b) = PyStr.sep_free c a && PyStr.sep_free c b.
Proof. apply all_chars_app. Qed.

Lemma is_valid_version_nonempty (v : string) :
  is_valid_version v = true -> truthy (Some v) = true.
Proof. destruct v; [discriminate|reflexivity]. Qed.

Lemma truthy_path_join (stem : string) :
  truthy (Some (PyStr.path_join stem "chromedriver")) = true.
Proof.
  unfold PyStr.path_join. simpl.
  destruct (String.eqb stem "" || PyStr.endswith "/" stem)%bool;
    destruct stem; reflexivity.
Qed.

(** The last piece of a split of [a ++ b], [b] without the separator and
    not empty, is not empty. *)
Lemma last_item_app_free (sep : ascii) (a b : string) :
  PyStr.sep_free sep b = true -> b <> "" ->
  exists seg, PyStr.last_item (PyStr.split sep (a ++ b)) = Some seg /\ seg <> "".
Proof.
  intros Hb Hne. induction a as [|c a IH]; simpl.
  - rewrite (split_sep_free _ _ Hb). exists b. auto.
  - destruct IH as (seg & Hs & Hseg).
    destruct (Ascii.eqb c sep).
    + destruct (PyStr.split sep (a ++ b)) eqn:E; [discriminate|]. exists seg. auto.
    + destruct (PyStr.split sep (a ++ b)) as [|x l] eqn:E; [discriminate|].
      destruct l as [|y l].
      * simpl in Hs. inversion Hs; subst. exists (String c seg). split; [reflexivity|discriminate].
      * exists seg. auto.
Qed.

Lemma truthy_file_of_rewritten (user_platform v fn : string) :
  PyStr.last_item (PyStr.split "/" (rewritten_url user_platform v)) = Some fn ->
  truthy (Some fn) = true.
Proof.
  set (dir := PyStr.join "/" (removelast (PyStr.split "/" v))).
  assert (E : rewritten_url user_platform v
              = ((dir ++ "/chromedriver-" ++ user_platform) ++ ".zip")%string).
  { unfold rewritten_url. fold dir. rewrite !append_assoc. reflexivity. }
  rewrite E. intros H.
  destruct (last_item_app_free "/" (dir ++ "/chromedriver-" ++ user_platform) ".zip"
              eq_refl) as (seg & Hs & Hne); [discriminate|].
  rewrite H in Hs. inversion Hs; subst. destruct seg; [congruence|reflexivity].
Qed.

Section MoreMonadFacts.

Context {W : Type} {host : Host W}.

(** Either the first part raised, or it returned and the rest decided. *)
Lemma bind_cases {A B : Type} (m : M A) (f : A -> M B)
      (w w' : W) (r : outcome B) (l : list log_entry) :
  bind m f w = (r, w', l) ->
  (exists e, m w = (Raise e, w', l) /\ r = Raise e)
  \/ (exists a w1 l1 l2,
         m w = (Return a, w1, l1) /\ f a w1 = (r, w', l2) /\ l = l1 ++ l2).
Proof.
  unfold bind. destruct (m w) as [[[a|e] w1] l1].
  - destruct (f a w1) as [[r2 w2] l2] eqn:E. intros H. inversion H; subst.
    right. exists a, w1, l1, l2. auto.
  - intros H. inversion H; subst. left. eauto.
Qed.

Lemma bind_log {A B : Type} (P : log_entry -> Prop) (m : M A) (f : A -> M B) (w : W) :
  Forall P (snd (m w)) ->
  (forall a w1 l1, m w = (Return a, w1, l1) -> Forall P (snd (f a w1))) ->
  Forall P (snd (bind m f w)).
Proof.
  unfold bind. intros Hm Hf. destruct (m w) as [[[a|e] w1] l1]; simpl in *.
  - specialize (Hf a w1 l1 eq_refl). destruct (f a w1) as [[r2 w2] l2]. simpl in *.
    apply Forall_app. auto.
  - assumption.
Qed.

Lemma silent_ret {A : Type} (a : A) : silent (ret (W := W) a).
Proof. intros w. reflexivity. Qed.

Lemma silent_raise {A : Type} (e : exn) : silent (raise (W := W) (A := A) e).
Proof. intros w. reflexivity. Qed.

Lemma silent_pure {A : Type} (r : outcome A) : silent (pure (W := W) r).
Proof. intros w. reflexivity. Qed.

Lemma silent_call {A : Type} (op : W -> outcome A * W) : silent (call op).
Proof. intros w. unfold call. destruct (op w). reflexivity. Qed.

Lemma silent_bind {A B : Type} (m : M (W := W) A) (f : A -> M (W := W) B) :
  silent m -> (forall a, silent (f a)) -> silent (bind m f).
Proof.
  intros Hm Hf w. unfold bind. specialize (Hm w).
  destruct (m w) as [[[a|e] w1] l1]; simpl in *; subst; [|reflexivity].
  specialize (Hf a w1). destruct (f a w1) as [[r2 w2] l2]. simpl in *. now subst.
Qed.

Lemma silent_write_chunks (fn : string) (cs : list (list Byte.byte)) :
  silent (write_chunks fn cs).
Proof.
  induction cs as [|c cs IH]; simpl; [apply silent_ret|].
  destruct c; [exact IH|]. apply silent_bind; [apply silent_call|intros _; exact IH].
Qed.

(** The archive fetcher writes nothing to the log, whatever happens. *)
Lemma silent_download (url : string) : silent (download_chromedriver url).
Proof.
  unfold download_chromedriver.
  repeat (apply silent_bind; [|intros ?]);
    try apply silent_pure; try apply silent_call; try apply silent_ret;
    try apply silent_write_chunks.
  - destruct (content_length _); [apply silent_pure|apply silent_ret].
  - destruct (stream_error _); [apply silent_raise|apply silent_ret].
Qed.

(** ** Each stage by cases on what the host answers *)

Lemma get_chrome_version_cases (w : W) :
  get_chrome_version w =
  match spawn ["google-chrome"; "--version"] true w with
  | (Raise e, w1) =>
      if isinstance e CalledProcessErrorCls
      then (Return None, w1,
            [mk_log ERROR [Text "Error: "; VStr (PyStr.strip (exn_output e))]])
      else (Raise e, w1, [])
  | (Return p, w1) =>
      if (returncode p =? 0)%Z then
        match PyStr.last_item (PyStr.split_ws (PyStr.strip (stdout p))) with
        | None => (Raise IndexError, w1, [])
        | Some version =>
            if is_valid_version version then (Return (Some version), w1, [])
            else (Return None, w1,
                  [mk_log ERROR [Text "Invalid Chrome version returned from subprocess: ";
                                 VStr version]])
        end
      else (Return None, w1,
            [mk_log ERROR [Text "Error: "; VStr (PyStr.strip (stdout p))]])
  end.
Proof.
  run_script.
  destruct (spawn ["google-chrome"; "--version"] true w) as [[p|e] w1]; simpl.
  - destruct (returncode p =? 0)%Z; simpl; [|reflexivity].
    destruct (PyStr.last_item _) as [v|]; simpl; [|reflexivity].
    destruct (is_valid_version v); reflexivity.
  - destruct (isinstance e CalledProcessErrorCls); reflexivity.
Qed.

Lemma find_chromedriver_location_cases (w : W) :
  find_chromedriver_location w =
  match spawn ["which"; "chromedriver"] false w with
  | (Raise e, w1) =>
      if isinstance e CalledProcessErrorCls
      then (Return None, w1,
            [mk_log ERROR [Text "Error: "; VStr (PyStr.strip (exn_stderr e))]])
      else (Raise e, w1, [])
  | (Return p, w1) =>
      if (returncode p =? 0)%Z
      then (Return (Some (PyStr.strip (stdout p))), w1, [])
      else (Return None, w1,
            [mk_log ERROR [Text "Error: "; VStr (PyStr.strip (stderr p))]])
  end.
Proof.
  run_script.
  destruct (spawn ["which"; "chromedriver"] false w) as [[p|e] w1]; simpl.
  - destruct (returncode p =? 0)%Z; reflexivity.
  - destruct (isinstance e CalledProcessErrorCls); reflexivity.
Qed.

Lemma extract_zipped_file_cases (zip_fn : string) (w : W) :
  exists stem,
    PyStr.first_item (PyStr.split "." zip_fn) = Some stem /\
    extract_zipped_file zip_fn w =
    match zip_extractall zip_fn "" w with
    | (Raise e, w1) =>
        (Return None, w1,
         [mk_log ERROR [Text "Something went wrong while extracting file: "; VExn e]])
    | (Return _, w1) =>
        (Return (Some (PyStr.path_join stem "chromedriver")), w1, [])
    end.
Proof.
  destruct (first_item_split "." zip_fn) as [stem Hs]. exists stem.
  split; [assumption|]. run_script.
  destruct (zip_extractall zip_fn "" w) as [[u|e] w1]; simpl; [|reflexivity].
  rewrite Hs. reflexivity.
Qed.

Lemma move_extracted_chromedriver_cases (source target : string) (w : W) :
  move_extracted_chromedriver source target w =
  match shutil_copy source target w with
  | (Raise e, w1) =>
      (Return false, w1, [mk_log ERROR [Text "Error moving Chromedriver: "; VExn e]])
  | (Return _, w1) =>
      match os_chmod target mode_0o755 w1 with
      | (Raise e, w2) =>
          (Return false, w2, [mk_log ERROR [Text "Error moving Chromedriver: "; VExn e]])
      | (Return _, w2) => (Return true, w2, [])
      end
  end.
Proof.
  run_script.
  destruct (shutil_copy source target w) as [[u|e] w1]; [|reflexivity].
  destruct (os_chmod target mode_0o755 w1) as [[u'|e] w2]; reflexivity.
Qed.

Lemma get_chromedriver_download_url_cases (chrome_version user_platform : string) (w : W) :
  get_chromedriver_download_url chrome_version user_platform w =
  match requests_get latest_versions_url w with
  | (Raise e, w1) => (Raise e, w1, [])
  | (Return resp, w1) =>
      if negb (status_code resp =? 200)%Z then
        (Return None, w1,
         [mk_log ERROR
            [Text "Resp. status code is not equal to 200. Resp. status code: ";
             VInt (status_code resp)]])
      else
        match json_body resp with
        | Raise e =>
            if isinstance e KeyErrorCls then
              (Return None, w1,
               [mk_log WARNING
                  [Text "'milestones' key does not exist inside 'latest_versions_url' JSON response."]])
            else (Raise e, w1, [])
        | Return doc =>
            match getitem doc "milestones" with
            | Raise e =>
                if isinstance e KeyErrorCls then
                  (Return None, w1,
                   [mk_log WARNING
                      [Text "'milestones' key does not exist inside 'latest_versions_url' JSON response."]])
                else (Raise e, w1, [])
            | Return milestones_dict =>
                match getitem milestones_dict (Spec.major_of chrome_version) with
                | Raise e =>
                    if isinstance e KeyErrorCls then
                      (Return None, w1,
                       [mk_log WARNING
                          [Text "Major version key "; VStr (Spec.major_of chrome_version);
                           Text " does not exist inside 'latest_versions_url' JSON response."]])
                    else (Raise e, w1, [])
                | Return major_version_dict =>
                    match match getitem major_version_dict "downloads" with
                          | Return d => getitem d "chrome"
                          | Raise e => Raise e
                          end
                    with
                    | Raise e =>
                        if isinstance e KeyErrorCls then
                          (Return None, w1,
                           [mk_log WARNING
                              [Text "'downloads' or 'chrome' key(s) does not exist inside 'latest_versions_url' JSON response."]])
                        else (Raise e, w1, [])
                    | Return downloads_list_of_dicts =>
                        match iterate downloads_list_of_dicts with
                        | Raise e => (Raise e, w1, [])
                        | Return items =>
                            match scan_downloads user_platform items with
                            | Raise e => (Raise e, w1, [])
                            | Return r =>
                                (Return r, w1,
                                 if truthy r then []
                                 else [mk_log ERROR
                                         [Text "Was unable to retrieve chromedriver download URL for Chrome major version '";
                                          VJson major_version_dict;
                                          Text "' and user platform '"; VStr user_platform;
                                          Text "'"]])
                            end
                        end
                    end
                end
            end
        end
  end.
Proof.
  run_script. rewrite first_item_major.
  destruct (requests_get latest_versions_url w) as [[resp|e] w1]; [|reflexivity].
  destruct (negb (status_code resp =? 200)%Z); [reflexivity|]. simpl.
  destruct (json_body resp) as [doc|e]; simpl; [|destruct e; reflexivity].
  destruct (getitem doc "milestones") as [ms|e]; simpl;
    [|destruct e; reflexivity].
  destruct (getitem ms (Spec.major_of chrome_version)) as [mv|e]; simpl;
    [|destruct e; reflexivity].
  destruct (getitem mv "downloads") as [d|e]; simpl;
    [|destruct e; reflexivity].
  destruct (getitem d "chrome") as [lst|e]; simpl;
    [|destruct e; reflexivity].
  destruct (iterate lst) as [items|e]; simpl; [|reflexivity].
  destruct (scan_downloads user_platform items) as [r|e]; simpl; [|reflexivity].
  destruct (truthy r); reflexivity.
Qed.

End MoreMonadFacts.

(** X2. A version that [is_valid_version] accepts has a number for its
    first dotted component, the one line 45 looks up. *)
Theorem valid_version_numeric_major (version : string) :
  is_valid_version version = true ->
  exists major,
    PyStr.first_item (PyStr.split "." version) = Some major
    /\ Spec.number major = true.
Proof.
  intros H. apply is_valid_version_iff in H.
  destruct H as (a & b & c & d & rest & Ha & _ & _ & _ & ->).
  exists a. split; [|assumption]. simpl.
  rewrite split_app, (split_sep_free _ _ (number_dot_free _ Ha)). reflexivity.
Qed.

Lemma valid_version_numeric_major_witness :
  is_valid_version "124.0.6367.60" = true
  /\ exists major,
       PyStr.first_item (PyStr.split "." "124.0.6367.60") = Some major
       /\ Spec.number major = true.
Proof.
  split; [reflexivity|]. apply valid_version_numeric_major. reflexivity.
Defined.

Section StageResults.

Context {W : Type} {host : Host W}.

(** X3. What [get_chrome_version] returns: a version only after a zero
    exit, and then the last whitespace-delimited token of the output, valid
    and unreported; [None] only together with exactly one error report. *)
Theorem get_chrome_version_returns
    (w w' : W) (r : option string) (l : list log_entry) :
  get_chrome_version w = (Return r, w', l) ->
  match r with
  | Some version =>
      l = [] /\ is_valid_version version = true
      /\ exists p,
           spawn ["google-chrome"; "--version"] true w = (Return p, w')
           /\ returncode p = 0%Z
           /\ PyStr.last_item (PyStr.split_ws (PyStr.strip (stdout p))) = Some version
  | None => exists m, l = [mk_log ERROR m]
  end.
Proof.
  rewrite get_chrome_version_cases.
  destruct (spawn ["google-chrome"; "--version"] true w) as [[p|e] w1].
  - destruct (returncode p =? 0)%Z eqn:Hrc.
    + destruct (PyStr.last_item _) as [v|] eqn:Hv; [|discriminate].
      destruct (is_valid_version v) eqn:Hvalid; intros H; inversion H; subst.
      * repeat split; auto. exists p. apply Z.eqb_eq in Hrc. auto.
      * eauto.
    + intros H. inversion H; subst. eauto.
  - destruct (isinstance e CalledProcessErrorCls); intros H; inversion H; subst. eauto.
Qed.

(** X4. A zero exit with nothing but whitespace on the output makes line
    19 index an empty list: the [IndexError] leaves [get_chrome_version]
    uncaught and unreported. *)
Theorem blank_version_output_escapes (w w1 : W) (p : completed_process) :
  spawn ["google-chrome"; "--version"] true w = (Return p, w1) ->
  returncode p = 0%Z ->
  PyStr.all_chars PyStr.isspace (stdout p) = true ->
  get_chrome_version w = (Raise IndexError, w1, []).
Proof.
  intros Hs Hrc Hblank. rewrite get_chrome_version_cases, Hs, Hrc.
  rewrite (strip_blank _ Hblank). reflexivity.
Qed.

(** X5. What [find_chromedriver_location] returns: a path only after a
    zero exit, and then the output with the surrounding whitespace gone,
    unreported; [None] only together with exactly one error report. *)
Theorem find_chromedriver_location_returns
    (w w' : W) (r : option string) (l : list log_entry) :
  find_chromedriver_location w = (Return r, w', l) ->
  match r with
  | Some path =>
      l = [] /\ PyStr.strip path = path
      /\ exists p,
           spawn ["which"; "chromedriver"] false w = (Return p, w')
           /\ returncode p = 0%Z /\ path = PyStr.strip (stdout p)
  | None => exists m, l = [mk_log ERROR m]
  end.
Proof.
  rewrite find_chromedriver_location_cases.
  destruct (spawn ["which"; "chromedriver"] false w) as [[p|e] w1].
  - destruct (returncode p =? 0)%Z eqn:Hrc; intros H; inversion H; subst.
    + split; [reflexivity|]. split; [apply strip_idem|].
      exists p. apply Z.eqb_eq in Hrc. auto.
    + eauto.
  - destruct (isinstance e CalledProcessErrorCls); intros H; inversion H; subst. eauto.
Qed.

(** X7. The extractor never raises.  It returns [None] exactly when the
    archive could not be extracted, with one error report; otherwise a
    non-empty path and no report.  The host is left as the extraction
    left it. *)
Theorem extract_zipped_file_total (zip_fn : string) (w : W) :
  exists r l,
    extract_zipped_file zip_fn w = (Return r, snd (zip_extractall zip_fn "" w), l)
    /\ (r = None <-> exists e, fst (zip_extractall zip_fn "" w) = Raise e)
    /\ match r with
       | None => exists m, l = [mk_log ERROR m]
       | Some path => l = [] /\ truthy r = true
       end.
Proof.
  destruct (extract_zipped_file_cases zip_fn w) as (stem & _ & ->).
  destruct (zip_extractall zip_fn "" w) as [[u|e] w1]; simpl.
  - eexists _, _. split; [reflexivity|]. split.
    + split; [discriminate|]. intros [e He]. discriminate.
    + split; [reflexivity|apply truthy_path_join].
  - eexists _, _. split; [reflexivity|]. split; [|eauto].
    split; eauto.
Qed.

(** X8. For a platform name without dot or slash, the archive
    "chromedriver-<platform>.zip", once extracted, gives the path
    "chromedriver-<platform>/chromedriver". *)
Theorem extract_platform_archive (user_platform : string) (w w1 : W) :
  PyStr.sep_free "." user_platform = true ->
  PyStr.sep_free "/" user_platform = true ->
  zip_extractall ("chromedriver-" ++ user_platform ++ ".zip")%string "" w
  = (Return tt, w1) ->
  extract_zipped_file ("chromedriver-" ++ user_platform ++ ".zip") w
  = (Return (Some ("chromedriver-" ++ user_platform ++ "/chromedriver")%string), w1, []).
Proof.
  intros Hdot Hslash He.
  assert (E : ("chromedriver-" ++ user_platform ++ ".zip")%string
              = (("chromedriver-" ++ user_platform) ++ String "." "zip")%string).
  { rewrite append_assoc. reflexivity. }
  rewrite E in *.
  assert (Hfree : PyStr.sep_free "." ("chromedriver-" ++ user_platform) = true).
  { rewrite sep_free_app, Hdot. reflexivity. }
  rewrite (extract_path_plain _ _ _ _ Hfree He).
  unfold PyStr.path_join.
  replace (PyStr.startswith "/" "chromedriver") with false by reflexivity.
  assert (Hend : PyStr.endswith "/" ("chromedriver-" ++ user_platform) = false).
  { apply endswith_sep_free. rewrite sep_free_app, Hslash. reflexivity. }
  rewrite Hend. simpl. reflexivity.
Qed.

End StageResults.

Lemma get_chrome_version_returns_witness :
  get_chrome_version host123 = (Return (Some "123.0.6312.58"), host123, [])
  /\ ([] = @nil log_entry /\ is_valid_version "123.0.6312.58" = true
      /\ exists p,
           spawn ["google-chrome"; "--version"] true host123 = (Return p, host123)
           /\ returncode p = 0%Z
           /\ PyStr.last_item (PyStr.split_ws (PyStr.strip (stdout p)))
              = Some "123.0.6312.58").
Proof.
  split; [reflexivity|].
  exact (get_chrome_version_returns host123 host123 (Some "123.0.6312.58") [] eq_refl).
Defined.

Lemma blank_version_output_escapes_witness :
  let w := mk_world [("google-chrome", mk_completed 0 "  " "")] [] [] [] in
  get_chrome_version w = (Raise IndexError, w, []).
Proof.
  apply (blank_version_output_escapes _ _ (mk_completed 0 "  " "")); reflexivity.
Defined.

Lemma find_chromedriver_location_returns_witness :
  find_chromedriver_location host123
  = (Return (Some "/usr/local/bin/chromedriver"), host123, [])
  /\ ([] = @nil log_entry
      /\ PyStr.strip "/usr/local/bin/chromedriver" = "/usr/local/bin/chromedriver"
      /\ exists p,
           spawn ["which"; "chromedriver"] false host123 = (Return p, host123)
           /\ returncode p = 0%Z
           /\ "/usr/local/bin/chromedriver" = PyStr.strip (stdout p)).
Proof.
  split; [reflexivity|].
  exact (find_chromedriver_location_returns host123 host123
           (Some "/usr/local/bin/chromedriver") [] eq_refl).
Defined.

Lemma extract_platform_archive_witness :
  let w := mk_world [] []
             [("chromedriver-linux64.zip", [("chromedriver-linux64/chromedriver", elf_bytes)])]
             [("chromedriver-linux64.zip", mk_file zip_bytes mode_0o644)] in
  exists w1,
    zip_extractall "chromedriver-linux64.zip" "" w = (Return tt, w1)
    /\ extract_zipped_file "chromedriver-linux64.zip" w
       = (Return (Some "chromedriver-linux64/chromedriver"), w1, []).
Proof.
  eexists. split; [reflexivity|].
  apply (extract_platform_archive "linux64"); reflexivity.
Defined.

Lemma scan_none (user_platform : string) (items : list json) :
  Forall (Spec.passed_over user_platform) items ->
  scan_downloads user_platform items = Return None.
Proof.
  induction 1 as [|j items (q & Hq & Hne) _ IH]; [reflexivity|].
  apply entry_platform_inv in Hq. destruct Hq as (fs & -> & Hq).
  simpl. rewrite Hq. simpl. apply String.eqb_neq in Hne. rewrite Hne. exact IH.
Qed.

(** What the loop can raise. *)
Lemma scan_raise_inv (user_platform : string) (items : list json) (e : exn) :
  scan_downloads user_platform items = Raise e ->
  e = KeyError "platform" \/ e = KeyError "url"
  \/ e = TypeError \/ e = AttributeError.
Proof.
  induction items as [|j items IH]; simpl; [discriminate|].
  destruct (getitem j "platform") as [pl|e0] eqn:Ep.
  - destruct (str_lower pl) as [p|e1] eqn:El.
    + destruct (String.eqb p (PyStr.lower user_platform)); [|exact IH].
      destruct (getitem j "url") as [v|e2] eqn:Ev.
      * destruct v; intros H; inversion H; auto.
      * intros H. inversion H; subst.
        destruct j; simpl in Ev; try (inversion Ev; auto; fail).
        destruct (lookup "url" fields); inversion Ev; auto.
    + intros H. inversion H; subst. destruct pl; inversion El; auto.
  - intros H. inversion H; subst.
    destruct j; simpl in Ep; try (inversion Ep; auto; fail).
    destruct (lookup "platform" fields); inversion Ep; auto.
Qed.

Lemma scan_some_truthy (user_platform : string) (items : list json) (u : string) :
  scan_downloads user_platform items = Return (Some u) -> truthy (Some u) = true.
Proof.
  intros H. apply scan_suffix in H. destruct H as (j & v & _ & _ & ->).
  apply truthy_rewritten.
Qed.

Lemma getitem_raise_inv (v : json) (k : string) (e : exn) :
  getitem v k = Raise e -> e = KeyError k \/ e = TypeError.
Proof.
  destruct v; simpl; intros H; try (inversion H; auto; fail).
  destruct (lookup k fields); inversion H; auto.
Qed.

Lemma iterate_raise_inv (v : json) (e : exn) :
  iterate v = Raise e -> e = TypeError.
Proof. destruct v; simpl; intros H; inversion H; reflexivity. Qed.

Section ResolverResults.

Context {W : Type} {host : Host W}.

(** A URL comes from the scan of some list, as the rewriting of an
    entry's URL. *)
Lemma resolve_return_inv (w w' : W) (chrome_version user_platform u : string)
      (l : list log_entry) :
  get_chromedriver_download_url chrome_version user_platform w
  = (Return (Some u), w', l) ->
  l = [] /\ exists v, u = rewritten_url user_platform v.
Proof.
  rewrite get_chromedriver_download_url_cases.
  destruct (requests_get latest_versions_url w) as [[resp|e] w1]; [|discriminate].
  destruct (negb (status_code resp =? 200)%Z); [discriminate|].
  destruct (json_body resp) as [doc|e];
    [|destruct (isinstance e KeyErrorCls); discriminate].
  destruct (getitem doc "milestones") as [ms|e];
    [|destruct (isinstance e KeyErrorCls); discriminate].
  destruct (getitem ms _) as [mv|e];
    [|destruct (isinstance e KeyErrorCls); discriminate].
  destruct (match getitem mv "downloads" with
            | Return d => getitem d "chrome" | Raise e => Raise e end) as [lst|e];
    [|destruct (isinstance e KeyErrorCls); discriminate].
  destruct (iterate lst) as [items|e]; [|discriminate].
  destruct (scan_downloads user_platform items) as [r|e] eqn:Hs; [|discriminate].
  intros H. inversion H; subst. rewrite (scan_some_truthy _ _ _ Hs).
  split; [reflexivity|]. apply scan_suffix in Hs.
  destruct Hs as (j & v & _ & _ & ->). eauto.
Qed.

(** X9. Any status other than 200, success statuses such as 204 included,
    ends resolution: one error report with the status, [None], and the
    body is never looked at. *)
Theorem metadata_status_not_200 (w w1 : W) (resp : response)
    (chrome_version user_platform : string) :
  requests_get latest_versions_url w = (Return resp, w1) ->
  status_code resp <> 200%Z ->
  get_chromedriver_download_url chrome_version user_platform w
  = (Return None, w1,
     [mk_log ERROR
        [Text "Resp. status code is not equal to 200. Resp. status code: ";
         VInt (status_code resp)]]).
Proof.
  intros Hg Hs. rewrite get_chromedriver_download_url_cases, Hg.
  apply Z.eqb_neq in Hs. rewrite Hs. reflexivity.
Qed.

(** X10. When every entry of the downloads list has a string platform
    other than the wanted one (an empty list included), resolution gives
    [None] and one error report that shows the major-version record and
    the platform. *)
Theorem platform_not_found (w w1 : W) (doc ms mv dl : json) (items : list json)
    (chrome_version user_platform : string) :
  fetched w w1 doc ->
  Spec.field "milestones" doc = Some ms ->
  Spec.field (Spec.major_of chrome_version) ms = Some mv ->
  Spec.field "downloads" mv = Some dl ->
  Spec.field "chrome" dl = Some (JArr items) ->
  Forall (Spec.passed_over user_platform) items ->
  get_chromedriver_download_url chrome_version user_platform w
  = (Return None, w1,
     [mk_log ERROR
        [Text "Was unable to retrieve chromedriver download URL for Chrome major version '";
         VJson mv; Text "' and user platform '"; VStr user_platform; Text "'"]]).
Proof.
  intros Hf H1 H2 H3 H4 Hall.
  rewrite (resolve_scan w w1 doc _ _ Hf ms mv dl (JArr items) items); auto.
  rewrite (scan_none _ _ Hall). reflexivity.
Qed.

(** X11. Of the browser version only the first dotted component counts:
    two versions with the same one resolve alike. *)
Theorem resolution_uses_major_only (w : W) (version1 version2 user_platform : string) :
  PyStr.first_item (PyStr.split "." version1)
  = PyStr.first_item (PyStr.split "." version2) ->
  get_chromedriver_download_url version1 user_platform w
  = get_chromedriver_download_url version2 user_platform w.
Proof.
  rewrite !first_item_major. intros E. inversion E as [E'].
  rewrite !get_chromedriver_download_url_cases, E'. reflexivity.
Qed.

(** X12. What leaves the resolver as an exception: whatever the request
    raised, whatever [resp.json()] raised other than a [KeyError], a value
    of the wrong type on the way, or a download entry without "platform"
    or "url".  A missing "milestones", major version, "downloads" or
    "chrome" key never does.  Nothing is logged on the way out. *)
Theorem resolver_escapes (w w' : W) (chrome_version user_platform : string)
    (e : exn) (l : list log_entry) :
  get_chromedriver_download_url chrome_version user_platform w = (Raise e, w', l) ->
  l = []
  /\ (requests_get latest_versions_url w = (Raise e, w')
      \/ (exists resp,
             requests_get latest_versions_url w = (Return resp, w')
             /\ json_body resp = Raise e /\ isinstance e KeyErrorCls = false)
      \/ e = TypeError \/ e = AttributeError
      \/ e = KeyError "platform" \/ e = KeyError "url").
Proof.
  rewrite get_chromedriver_download_url_cases.
  destruct (requests_get latest_versions_url w) as [[resp|e0] w1] eqn:Hget.
  2:{ intros H. inversion H; subst. auto. }
  destruct (negb (status_code resp =? 200)%Z); [discriminate|].
  destruct (json_body resp) as [doc|e0] eqn:Hbody.
  2:{ destruct (isinstance e0 KeyErrorCls) eqn:Hk; [discriminate|].
      intros H. inversion H; subst. split; [reflexivity|]. right. left.
      exists resp. auto. }
  destruct (getitem doc "milestones") as [ms|e0] eqn:E1.
  2:{ apply getitem_raise_inv in E1. destruct E1 as [->| ->]; simpl;
      intros H; inversion H; auto 10. }
  destruct (getitem ms _) as [mv|e0] eqn:E2.
  2:{ apply getitem_raise_inv in E2. destruct E2 as [->| ->]; simpl;
      intros H; inversion H; auto 10. }
  destruct (match getitem mv "downloads" with
            | Return d => getitem d "chrome" | Raise e => Raise e end) as [lst|e0] eqn:E3.
  2:{ assert (K : (exists k, e0 = KeyError k) \/ e0 = TypeError).
      { destruct (getitem mv "downloads") as [d|e1] eqn:E4.
        - apply getitem_raise_inv in E3. destruct E3; eauto.
        - inversion E3; subst. apply getitem_raise_inv in E4. destruct E4; eauto. }
      destruct K as [[k ->]| ->]; simpl; intros H; inversion H; auto 10. }
  destruct (iterate lst) as [items|e0] eqn:E4.
  2:{ apply iterate_raise_inv in E4. intros H. inversion H; subst. auto 10. }
  destruct (scan_downloads user_platform items) as [r|e0] eqn:E5; [discriminate|].
  intros H. inversion H; subst. apply scan_raise_inv in E5.
  split; [reflexivity|]. tauto.
Qed.

(** X13. The resolver's only dealing with the host is the one metadata
    request: whatever the outcome, the host is left as that request left
    it. *)
Theorem resolver_footprint (w : W) (chrome_version user_platform : string) :
  snd (fst (get_chromedriver_download_url chrome_version user_platform w))
  = snd (requests_get latest_versions_url w).
Proof.
  rewrite get_chromedriver_download_url_cases.
  destruct (requests_get latest_versions_url w) as [[resp|e] w1]; [|reflexivity].
  destruct (negb (status_code resp =? 200)%Z); [reflexivity|].
  destruct (json_body resp) as [doc|e];
    [|destruct (isinstance e KeyErrorCls); reflexivity].
  destruct (getitem doc "milestones") as [ms|e];
    [|destruct (isinstance e KeyErrorCls); reflexivity].
  destruct (getitem ms _) as [mv|e];
    [|destruct (isinstance e KeyErrorCls); reflexivity].
  destruct (match getitem mv "downloads" with
            | Return d => getitem d "chrome" | Raise e => Raise e end) as [lst|e];
    [|destruct (isinstance e KeyErrorCls); reflexivity].
  destruct (iterate lst) as [items|e]; [|reflexivity].
  destruct (scan_downloads user_platform items) as [r|e]; reflexivity.
Qed.

(** X14. A resolution that returns [None] has logged exactly one report,
    a warning or an error; one that returns a URL has logged nothing, and
    the URL is not empty. *)
Theorem resolver_reports_each_failure (w w' : W) (chrome_version user_platform : string)
    (r : option string) (l : list log_entry) :
  get_chromedriver_download_url chrome_version user_platform w = (Return r, w', l) ->
  match r with
  | None => exists e, l = [e] /\ report e = true
  | Some u => l = [] /\ truthy r = true
  end.
Proof.
  destruct r as [u|].
  - intros H. destruct (resolve_return_inv _ _ _ _ _ _ H) as (-> & v & ->).
    split; [reflexivity|apply truthy_rewritten].
  - rewrite get_chromedriver_download_url_cases.
    destruct (requests_get latest_versions_url w) as [[resp|e] w1]; [|discriminate].
    destruct (negb (status_code resp =? 200)%Z);
      [intros H; inversion H; subst; eauto|].
    destruct (json_body resp) as [doc|e];
      [|destruct (isinstance e KeyErrorCls); intros H; inversion H; subst; eauto].
    destruct (getitem doc "milestones") as [ms|e];
      [|destruct (isinstance e KeyErrorCls); intros H; inversion H; subst; eauto].
    destruct (getitem ms _) as [mv|e];
      [|destruct (isinstance e KeyErrorCls); intros H; inversion H; subst; eauto].
    destruct (match getitem mv "downloads" with
              | Return d => getitem d "chrome" | Raise e => Raise e end) as [lst|e];
      [|destruct (isinstance e KeyErrorCls); intros H; inversion H; subst; eauto].
    destruct (iterate lst) as [items|e]; [|discriminate].
    destruct (scan_downloads user_platform items) as [r|e]; [|discriminate].
    intros H. inversion H; subst. simpl. eauto.
Qed.

End ResolverResults.

Lemma metadata_status_not_200_witness :
  let w := mk_world [] [(latest_versions_url, mk_response 204 (Return doc123) None [] None)]
             [] [] in
  get_chromedriver_download_url "123.0.6312.58" "linux64" w
  = (Return None, w,
     [mk_log ERROR
        [Text "Resp. status code is not equal to 200. Resp. status code: "; VInt 204]]).
Proof.
  apply (metadata_status_not_200 _ _ (mk_response 204 (Return doc123) None [] None));
    [reflexivity|discriminate].
Defined.

Lemma platform_not_found_witness :
  exists mv,
    get_chromedriver_download_url "123.0.6312.58" "win64" host123
    = (Return None, host123,
       [mk_log ERROR
          [Text "Was unable to retrieve chromedriver download URL for Chrome major version '";
           VJson mv; Text "' and user platform '"; VStr "win64"; Text "'"]]).
Proof.
  eexists.
  eapply (platform_not_found host123 host123 doc123).
  - exists (json_response doc123). repeat split.
  - reflexivity.
  - reflexivity.
  - reflexivity.
  - reflexivity.
  - constructor; [|constructor]. exists "Linux64". split; [reflexivity|discriminate].
Defined.

Lemma resolution_uses_major_only_witness :
  get_chromedriver_download_url "123.0.6312.58" "linux64" host123
  = get_chromedriver_download_url "123.9.9.9" "linux64" host123.
Proof. apply resolution_uses_major_only. reflexivity. Defined.

Lemma resolver_escapes_witness :
  let w := mk_world [] [(latest_versions_url,
                         mk_response 200 (Raise RecursionError) None [] None)] [] [] in
  get_chromedriver_download_url "123.0.6312.58" "linux64" w = (Raise RecursionError, w, [])
  /\ ([] = @nil log_entry
      /\ (requests_get latest_versions_url w = (Raise RecursionError, w)
          \/ (exists resp,
                 requests_get latest_versions_url w = (Return resp, w)
                 /\ json_body resp = Raise RecursionError
                 /\ isinstance RecursionError KeyErrorCls = false)
          \/ RecursionError = TypeError \/ RecursionError = AttributeError
          \/ RecursionError = KeyError "platform" \/ RecursionError = KeyError "url")).
Proof.
  intros w. split; [reflexivity|].
  exact (resolver_escapes w w "123.0.6312.58" "linux64" RecursionError [] eq_refl).
Defined.

Lemma resolver_reports_each_failure_witness :
  exists e,
    snd (get_chromedriver_download_url "123.0.6312.58" "linux64" (host_of_doc (JObj [])))
    = [e] /\ report e = true.
Proof.
  exact (resolver_reports_each_failure
           (host_of_doc (JObj [])) (host_of_doc (JObj []))
           "123.0.6312.58" "linux64" None _ eq_refl).
Defined.

Section FetcherResults.

Context {W : Type} {host : Host W}.

Lemma call_inv {A : Type} (op : W -> outcome A * W) (w w1 : W) (a : A)
      (l : list log_entry) :
  call op w = (Return a, w1, l) -> op w = (Return a, w1) /\ l = [].
Proof.
  unfold call. destruct (op w) as [r w2]. intros H. inversion H; subst. auto.
Qed.

(** The fetcher names the file after the last piece of the URL. *)
Lemma download_returns_last_piece (url fn : string) (w w' : W) (l : list log_entry) :
  download_chromedriver url w = (Return fn, w', l) ->
  PyStr.last_item (PyStr.split "/" url) = Some fn.
Proof.
  unfold download_chromedriver. intros H.
  bind_inv H as fn0 Hfn. apply pure_inv in Hfn. destruct Hfn as (Hfn & _ & _).
  bind_inv H as resp Hresp. bind_inv H as u1 H1. bind_inv H as u2 H2.
  bind_inv H as n H3. bind_inv H as u4 H4. bind_inv H as u5 H5.
  apply ret_inv in H. destruct H as (-> & _).
  destruct (PyStr.last_item (PyStr.split "/" url)); inversion Hfn; reflexivity.
Qed.

(** X15. When [download_chromedriver] returns, it returns the last
    slash-separated piece of the URL; the answer was no 4xx or 5xx, the
    body came through whole, and nothing was logged. *)
Theorem download_chromedriver_returns (url fn : string) (w w' : W)
    (l : list log_entry) :
  download_chromedriver url w = (Return fn, w', l) ->
  PyStr.last_item (PyStr.split "/" url) = Some fn
  /\ l = []
  /\ exists resp w1,
       requests_get url w = (Return resp, w1)
       /\ ~ (400 <= status_code resp < 600)%Z
       /\ stream_error resp = None.
Proof.
  intros H. assert (Hl : l = []).
  { pose proof (silent_download url w) as S. rewrite H in S. exact S. }
  split; [exact (download_returns_last_piece _ _ _ _ _ H)|].
  split; [exact Hl|]. unfold download_chromedriver in H.
  bind_inv H as fn0 Hfn. apply pure_inv in Hfn. destruct Hfn as (_ & <- & _).
  bind_inv H as resp Hresp. apply call_inv in Hresp. destruct Hresp as [Hresp _].
  bind_inv H as u1 H1. apply pure_inv in H1. destruct H1 as (H1 & _ & _).
  bind_inv H as u2 H2. bind_inv H as n H3. bind_inv H as u4 H4.
  bind_inv H as u5 H5.
  exists resp. eexists. split; [exact Hresp|]. split.
  - unfold raise_for_status in H1. intros [Hlo Hhi].
    apply Z.leb_le in Hlo. apply Z.ltb_lt in Hhi. rewrite Hlo, Hhi in H1.
    discriminate H1.
  - destruct (stream_error resp); [discriminate H5|reflexivity].
Qed.

(** X16. The file that [main] downloads after a resolution is named
    "chromedriver-<platform>.zip", for any platform name without slash. *)
Theorem resolved_download_file_name
    (w w1 w2 w3 : W) (chrome_version user_platform u fn : string)
    (l1 l2 : list log_entry) :
  PyStr.sep_free "/" user_platform = true ->
  get_chromedriver_download_url chrome_version user_platform w = (Return (Some u), w1, l1) ->
  download_chromedriver u w2 = (Return fn, w3, l2) ->
  fn = ("chromedriver-" ++ user_platform ++ ".zip")%string.
Proof.
  intros Hfree Hr Hd.
  apply resolve_return_inv in Hr. destruct Hr as (_ & v & ->).
  apply download_returns_last_piece in Hd. rename Hd into Hfn.
  unfold rewritten_url in Hfn.
  change ("/chromedriver-" ++ user_platform ++ ".zip")%string
    with (String "/" ("chromedriver-" ++ user_platform ++ ".zip")) in Hfn.
  rewrite url_file_name in Hfn; [inversion Hfn; reflexivity|].
  unfold PyStr.sep_free in *. rewrite !all_chars_app, Hfree. reflexivity.
Qed.

(** The loop of lines 84-87 appends the chunks, in order, to the file. *)
Lemma write_chunks_appends (content : W -> string -> list Byte.byte) (fn : string) :
  (forall name bs w0 w1,
      file_write name bs w0 = (Return tt, w1) ->
      content w1 name = content w0 name ++ bs) ->
  forall (cs : list (list Byte.byte)) (w w' : W) (u : unit) (l : list log_entry),
    write_chunks fn cs w = (Return u, w', l) ->
    content w' fn = content w fn ++ concat cs.
Proof.
  intros Happ. induction cs as [|c cs IH]; intros w w' u l H; simpl in *.
  - apply ret_inv in H. destruct H as (_ & <- & _). rewrite app_nil_r. reflexivity.
  - destruct c as [|b c]; [exact (IH _ _ _ _ H)|].
    bind_inv H as u1 Hw. apply call_inv in Hw. destruct Hw as [Hw _].
    destruct u1. rewrite (IH _ _ _ _ H), (Happ _ _ _ _ Hw), <- app_assoc.
    reflexivity.
Qed.

(** X17. Round trip.  On a host where opening a file for writing leaves
    it empty and a write appends to it, the file that
    [download_chromedriver] returns the name of holds exactly the bytes of
    the chunks of the response, in order. *)
Theorem download_round_trip (content : W -> string -> list Byte.byte)
    (url fn : string) (w w' : W) (l : list log_entry) :
  (forall name w0 w1,
      open_wb name w0 = (Return tt, w1) -> content w1 name = []) ->
  (forall name bs w0 w1,
      file_write name bs w0 = (Return tt, w1) ->
      content w1 name = content w0 name ++ bs) ->
  download_chromedriver url w = (Return fn, w', l) ->
  exists resp w1,
    requests_get url w = (Return resp, w1)
    /\ content w' fn = concat (chunks resp).
Proof.
  intros Hopen Happ H.
  pose proof (download_returns_last_piece _ _ _ _ _ H) as Hfn.
  unfold download_chromedriver in H. rewrite Hfn in H.
  bind_at H as fn0 wa Hfn0. apply pure_inv in Hfn0. destruct Hfn0 as (Hfn0 & <- & _).
  inversion Hfn0; subst fn0.
  bind_at H as resp wb Hresp. apply call_inv in Hresp. destruct Hresp as [Hresp _].
  bind_at H as u1 wc H1. apply pure_inv in H1. destruct H1 as (_ & <- & _).
  bind_at H as u2 wd H2. apply call_inv in H2. destruct H2 as [H2 _]. destruct u2.
  bind_at H as n we H3.
  assert (E3 : wd = we).
  { destruct (content_length resp);
      [apply pure_inv in H3|apply ret_inv in H3]; tauto. }
  subst we.
  bind_at H as u4 wf H4. bind_at H as u5 wg H5.
  assert (E5 : wf = wg).
  { destruct (stream_error resp); [discriminate H5|].
    apply ret_inv in H5. tauto. }
  subst wg. apply ret_inv in H. destruct H as (_ & <- & _).
  exists resp, wb. split; [exact Hresp|].
  rewrite (write_chunks_appends content fn Happ _ _ _ _ _ H4), (Hopen _ _ _ H2).
  reflexivity.
Qed.

End FetcherResults.

(** ** The fetcher on the small host *)

Lemma lookup_upsert_same {A : Type} (k : string) (v : A) (l : list (string * A)) :
  lookup k (upsert k v l) = Some v.
Proof.
  induction l as [|[k' v'] l IH]; simpl.
  - rewrite String.eqb_refl. reflexivity.
  - destruct (String.eqb k k') eqn:E; simpl.
    + rewrite String.eqb_refl. reflexivity.
    + rewrite E. exact IH.
Qed.

Lemma lookup_upsert_other {A : Type} (k p : string) (v : A) (l : list (string * A)) :
  p <> k -> lookup p (upsert k v l) = lookup p l.
Proof.
  intros Hne. induction l as [|[k' v'] l IH]; simpl.
  - apply String.eqb_neq in Hne. rewrite Hne. reflexivity.
  - destruct (String.eqb k k') eqn:E; simpl.
    + apply String.eqb_eq in E. subst k'. apply String.eqb_neq in Hne.
      rewrite Hne. reflexivity.
    + rewrite IH. reflexivity.
Qed.

Lemma sim_open_truncates (fn : string) (w w' : world) :
  open_wb fn w = (Return tt, w') -> content_of w' fn = [].
Proof.
  simpl. unfold sim_open_wb.
  destruct (String.eqb fn ""); [discriminate|].
  destruct (is_directory fn); [discriminate|].
  intros H. inversion H; subst. unfold content_of. simpl.
  rewrite lookup_upsert_same. reflexivity.
Qed.

Lemma sim_write_appends (fn : string) (bs : list Byte.byte) (w w' : world) :
  file_write fn bs w = (Return tt, w') ->
  content_of w' fn = content_of w fn ++ bs.
Proof.
  simpl. unfold sim_write, content_of.
  destruct (lookup fn (files w)) as [f|]; [|discriminate].
  intros H. inversion H; subst. simpl. rewrite lookup_upsert_same. reflexivity.
Qed.

Lemma download_chromedriver_returns_witness :
  PyStr.last_item (PyStr.split "/" "https://x/123.0.0.0/chromedriver-linux64.zip")
  = Some "chromedriver-linux64.zip"
  /\ @nil log_entry = []
  /\ exists resp w1,
       requests_get "https://x/123.0.0.0/chromedriver-linux64.zip" host123
       = (Return resp, w1)
       /\ ~ (400 <= status_code resp < 600)%Z
       /\ stream_error resp = None.
Proof.
  eapply (download_chromedriver_returns
            "https://x/123.0.0.0/chromedriver-linux64.zip" "chromedriver-linux64.zip"
            host123).
  vm_compute. reflexivity.
Defined.

Lemma resolved_download_file_name_witness :
  "chromedriver-linux64.zip" = ("chromedriver-" ++ "linux64" ++ ".zip")%string.
Proof.
  eapply resolved_download_file_name
    with (w := host123) (w2 := host123) (chrome_version := "123.0.6312.58")
         (u := "https://x/123.0.0.0/chromedriver-linux64.zip").
  - reflexivity.
  - vm_compute. reflexivity.
  - vm_compute. reflexivity.
Defined.

Lemma download_round_trip_witness :
  let w' := snd (fst (download_chromedriver
                        "https://x/123.0.0.0/chromedriver-linux64.zip" host123)) in
  exists resp w1,
    requests_get "https://x/123.0.0.0/chromedriver-linux64.zip" host123
    = (Return resp, w1)
    /\ content_of w' "chromedriver-linux64.zip" = concat (chunks resp).
Proof.
  intros w'.
  apply (download_round_trip content_of
           "https://x/123.0.0.0/chromedriver-linux64.zip" "chromedriver-linux64.zip"
           host123 w' []).
  - exact sim_open_truncates.
  - exact sim_write_appends.
  - vm_compute. reflexivity.
Defined.

Section Pipeline.

Context {W : Type} {host : Host W}.

(** ** The stages log reports only, and none when they succeed *)

Lemma get_chrome_version_log (w w1 : W) (r : outcome (option string))
      (l : list log_entry) :
  get_chrome_version w = (r, w1, l) ->
  Forall (fun e => report e = true) l
  /\ forall v, r = Return (Some v) -> l = [] /\ is_valid_version v = true.
Proof.
  rewrite get_chrome_version_cases.
  destruct (spawn ["google-chrome"; "--version"] true w) as [[p|e] w0].
  - destruct (returncode p =? 0)%Z.
    + destruct (PyStr.last_item _) as [v|].
      * destruct (is_valid_version v) eqn:Hv; intros H; inversion H; subst.
        -- split; [constructor|]. intros v' E. inversion E; subst. auto.
        -- split; [repeat constructor|discriminate].
      * intros H. inversion H; subst. split; [constructor|discriminate].
    + intros H. inversion H; subst. split; [repeat constructor|discriminate].
  - destruct (isinstance e CalledProcessErrorCls); intros H; inversion H; subst;
      (split; [repeat constructor|discriminate]).
Qed.

Lemma resolver_log (chrome_version user_platform : string) (w w1 : W)
      (r : outcome (option string)) (l : list log_entry) :
  get_chromedriver_download_url chrome_version user_platform w = (r, w1, l) ->
  Forall (fun e => report e = true) l.
Proof.
  rewrite get_chromedriver_download_url_cases.
  destruct (requests_get latest_versions_url w) as [[resp|e] w0];
    [|intros H; inversion H; constructor].
  destruct (negb (status_code resp =? 200)%Z);
    [intros H; inversion H; repeat constructor|].
  destruct (json_body resp) as [doc|e];
    [|destruct (isinstance e KeyErrorCls); intros H; inversion H; repeat constructor].
  destruct (getitem doc "milestones") as [ms|e];
    [|destruct (isinstance e KeyErrorCls); intros H; inversion H; repeat constructor].
  destruct (getitem ms _) as [mv|e];
    [|destruct (isinstance e KeyErrorCls); intros H; inversion H; repeat constructor].
  destruct (match getitem mv "downloads" with
            | Return d => getitem d "chrome" | Raise e => Raise e end) as [lst|e];
    [|destruct (isinstance e KeyErrorCls); intros H; inversion H; repeat constructor].
  destruct (iterate lst) as [items|e]; [|intros H; inversion H; constructor].
  destruct (scan_downloads user_platform items) as [r0|e];
    [|intros H; inversion H; constructor].
  destruct (truthy r0); intros H; inversion H; repeat constructor.
Qed.

Lemma extract_log (zip_fn : string) (w w1 : W) (r : outcome (option string))
      (l : list log_entry) :
  extract_zipped_file zip_fn w = (r, w1, l) ->
  Forall (fun e => report e = true) l
  /\ forall p, r = Return (Some p) -> l = [] /\ truthy (Some p) = true.
Proof.
  destruct (extract_zipped_file_cases zip_fn w) as (stem & _ & ->).
  destruct (zip_extractall zip_fn "" w) as [[u|e] w0]; intros H; inversion H; subst.
  - split; [constructor|]. intros p E. inversion E; subst.
    split; [reflexivity|apply truthy_path_join].
  - split; [repeat constructor|discriminate].
Qed.

Lemma find_log (w w1 : W) (r : outcome (option string)) (l : list log_entry) :
  find_chromedriver_location w = (r, w1, l) ->
  Forall (fun e => report e = true) l
  /\ forall p, r = Return (Some p) -> l = [].
Proof.
  rewrite find_chromedriver_location_cases.
  destruct (spawn ["which"; "chromedriver"] false w) as [[p|e] w0].
  - destruct (returncode p =? 0)%Z; intros H; inversion H; subst.
    + split; [constructor|reflexivity].
    + split; [repeat constructor|discriminate].
  - destruct (isinstance e CalledProcessErrorCls); intros H; inversion H; subst;
      (split; [repeat constructor|discriminate]).
Qed.

Lemma move_log (source target : string) (w w1 : W) (r : outcome bool)
      (l : list log_entry) :
  move_extracted_chromedriver source target w = (r, w1, l) ->
  Forall (fun e => report e = true) l /\ (r = Return true -> l = []).
Proof.
  rewrite move_extracted_chromedriver_cases.
  destruct (shutil_copy source target w) as [[u|e] w0].
  - destruct (os_chmod target mode_0o755 w0) as [[u'|e] w2];
      intros H; inversion H; subst.
    + split; [constructor|reflexivity].
    + split; [repeat constructor|discriminate].
  - intros H. inversion H; subst. split; [repeat constructor|discriminate].
Qed.

Lemma download_log (url : string) (w w1 : W) (r : outcome string)
      (l : list log_entry) :
  download_chromedriver url w = (r, w1, l) -> l = [].
Proof. intros H. pose proof (silent_download url w) as S. rewrite H in S. exact S. Qed.

Lemma reports_exclude (x : log_entry) (l : list log_entry) :
  report x = false -> Forall (fun e => report e = true) l -> Forall (fun e => e <> x) l.
Proof.
  intros Hx. apply Forall_impl. intros e He E. subst. congruence.
Qed.

(** The name of the file fetched from a resolved URL is not empty. *)
Lemma resolved_download_truthy
      (w w1 w2 w3 : W) (chrome_version user_platform u fn : string)
      (l1 l2 : list log_entry) :
  get_chromedriver_download_url chrome_version user_platform w
  = (Return (Some u), w1, l1) ->
  download_chromedriver u w2 = (Return fn, w3, l2) ->
  truthy (Some fn) = true.
Proof.
  intros Hr Hd. apply resolve_return_inv in Hr. destruct Hr as (_ & v & ->).
  apply (truthy_file_of_rewritten user_platform v).
  exact (download_returns_last_piece _ _ _ _ _ Hd).
Qed.

Lemma truthy_inv (r : option string) :
  truthy r = true -> exists s, r = Some s /\ s <> "".
Proof.
  destruct r as [[|c s]|]; try discriminate. intros _. eexists. split; [reflexivity|discriminate].
Qed.

(** X18. [main] never logs "Failed to download chromedriver": the branch
    of lines 145-147 cannot be taken, a file name that comes back from
    the fetcher is never empty. *)
Theorem failed_download_never_logged (user_platform : string) (w : W) :
  ~ In failed_download (snd (main user_platform w)).
Proof.
  assert (F : Forall (fun e => e <> failed_download) (snd (main user_platform w))).
  2:{ intros Hin. rewrite Forall_forall in F. exact (F _ Hin eq_refl). }
  unfold main. apply bind_log.
  { destruct (get_chrome_version w) as [[r w1] l] eqn:E.
    simpl; apply (reports_exclude failed_download _ eq_refl), (get_chrome_version_log _ _ _ _ E). }
  intros v w1 l1 Hv. destruct (negb (truthy v)) eqn:Tv; [constructor|].
  apply negb_false_iff, truthy_inv in Tv. destruct Tv as (ver & -> & _). cbn [negb the_str].
  apply bind_log.
  { destruct (get_chromedriver_download_url ver user_platform w1) as [[r w2] l] eqn:E.
    simpl; apply (reports_exclude failed_download _ eq_refl), (resolver_log _ _ _ _ _ _ E). }
  intros u w2 l2 Hu. destruct (negb (truthy u)) eqn:Tu; [constructor|].
  apply negb_false_iff, truthy_inv in Tu. destruct Tu as (url & -> & _). cbn [negb the_str].
  apply bind_log; [repeat constructor; discriminate|]. intros ? w2' l2' Hlog.
  apply bind_log.
  { rewrite silent_download. constructor. }
  intros fn w3 l3 Hd.
  rewrite (resolved_download_truthy _ _ _ _ _ _ _ _ _ _ Hu Hd). cbn [negb the_str].
  apply bind_log; [repeat constructor; discriminate|]. intros ? w3' l3' ?.
  apply bind_log.
  { destruct (extract_zipped_file fn w3') as [[r w4] l] eqn:E.
    simpl; apply (reports_exclude failed_download _ eq_refl), (extract_log _ _ _ _ _ E). }
  intros p w4 l4 Hp. destruct (negb (truthy p)); [constructor|].
  apply bind_log.
  { destruct (find_chromedriver_location w4) as [[r w5] l] eqn:E.
    simpl; apply (reports_exclude failed_download _ eq_refl), (find_log _ _ _ _ E). }
  intros loc w5 l5 Hloc. destruct (negb (truthy loc)); [constructor|].
  apply bind_log.
  { destruct (move_extracted_chromedriver (the_str p) (the_str loc) w5)
      as [[r w6] l] eqn:E.
    simpl; apply (reports_exclude failed_download _ eq_refl), (move_log _ _ _ _ _ _ E). }
  intros st w6 l6 Hst. destruct st; [repeat constructor; discriminate|constructor].
Qed.

(** One step of the pipeline on the way to the final message. *)
Lemma step_towards_update {A B : Type} (m : M A) (f : A -> M B)
      (w w' : W) (r : outcome B) (l : list log_entry) :
  bind m f w = (r, w', l) ->
  Forall (fun e => e <> updated) (snd (m w)) ->
  In updated l ->
  exists a w1 l1 l2,
    m w = (Return a, w1, l1) /\ f a w1 = (r, w', l2) /\ l = l1 ++ l2
    /\ In updated l2.
Proof.
  intros H F Hin. apply bind_cases in H.
  destruct H as [(e & Hm & ->)|(a & w1 & l1 & l2 & Hm & Hf & ->)].
  - rewrite Hm in F. simpl in F. rewrite Forall_forall in F.
    exfalso. exact (F _ Hin eq_refl).
  - rewrite Hm in F. simpl in F. rewrite Forall_forall in F.
    exists a, w1, l1, l2. repeat split; auto.
    apply in_app_or in Hin. destruct Hin as [Hin|Hin]; [|exact Hin].
    exfalso. exact (F _ Hin eq_refl).
Qed.

Lemma ret_not_updated {A : Type} (a : A) (w w' : W) (r : outcome A)
      (l : list log_entry) :
  ret a w = (r, w', l) -> In updated l -> False.
Proof. unfold ret. intros H. inversion H; subst. intros []. Qed.

(** X19. [main] logs "Chromedriver successfully updated for your OS." only
    when all six stages succeeded in order, each on the host the one
    before left, and none of them logged anything; the located path is
    not empty, and the log is the three entries of [main] itself. *)
Theorem update_only_after_all_stages
    (user_platform : string) (w w' : W) (r : outcome unit) (l : list log_entry) :
  main user_platform w = (r, w', l) ->
  In updated l ->
  exists version w1 url w2 fn w3 path w4 location w5,
    get_chrome_version w = (Return (Some version), w1, [])
    /\ get_chromedriver_download_url version user_platform w1
       = (Return (Some url), w2, [])
    /\ download_chromedriver url w2 = (Return fn, w3, [])
    /\ extract_zipped_file fn w3 = (Return (Some path), w4, [])
    /\ find_chromedriver_location w4 = (Return (Some location), w5, [])
    /\ location <> ""
    /\ move_extracted_chromedriver path location w5 = (Return true, w', [])
    /\ r = Return tt
    /\ l = [starting_download version user_platform; downloaded; updated].
Proof.
  unfold main. intros H Hin.
  apply step_towards_update in H; [|
    destruct (get_chrome_version w) as [[r0 w0] l0] eqn:E;
    simpl; apply (reports_exclude updated _ eq_refl), (get_chrome_version_log _ _ _ _ E)|exact Hin].
  clear Hin. destruct H as (v & w1 & l1 & k1 & Hv & H & -> & Hin).
  destruct (negb (truthy v)) eqn:Tv; [exfalso; exact (ret_not_updated _ _ _ _ _ H Hin)|].
  apply negb_false_iff, truthy_inv in Tv. destruct Tv as (version & -> & _).
  destruct (get_chrome_version_log _ _ _ _ Hv) as [_ S]. destruct (S _ eq_refl) as [-> _].
  cbn [negb the_str] in H.
  apply step_towards_update in H; [|
    destruct (get_chromedriver_download_url version user_platform w1)
      as [[r0 w0] l0] eqn:E;
    simpl; apply (reports_exclude updated _ eq_refl), (resolver_log _ _ _ _ _ _ E)|exact Hin].
  clear Hin. destruct H as (u & w2 & l2 & k2 & Hu & H & -> & Hin).
  destruct (negb (truthy u)) eqn:Tu; [exfalso; exact (ret_not_updated _ _ _ _ _ H Hin)|].
  apply negb_false_iff, truthy_inv in Tu. destruct Tu as (url & -> & _).
  destruct (resolve_return_inv _ _ _ _ _ _ Hu) as [-> _]. cbn [negb the_str] in H.
  apply step_towards_update in H; [|repeat constructor; discriminate|exact Hin].
  clear Hin. destruct H as (u0 & w2' & l0 & k3 & Hlog & H & -> & Hin).
  unfold logger in Hlog. inversion Hlog; subst w2' l0. clear Hlog.
  apply step_towards_update in H; [|rewrite silent_download; constructor|exact Hin].
  clear Hin. destruct H as (fn & w3 & l3 & k4 & Hd & H & -> & Hin).
  pose proof (download_log _ _ _ _ _ Hd) as El. subst l3.
  rewrite (resolved_download_truthy _ _ _ _ _ _ _ _ _ _ Hu Hd) in H. cbn [negb the_str] in H.
  apply step_towards_update in H; [|repeat constructor; discriminate|exact Hin].
  clear Hin. destruct H as (u1 & w3' & l0 & k5 & Hlog & H & -> & Hin).
  unfold logger in Hlog. inversion Hlog; subst w3' l0. clear Hlog.
  apply step_towards_update in H; [|
    destruct (extract_zipped_file fn w3) as [[r0 w0] l0] eqn:E;
    simpl; apply (reports_exclude updated _ eq_refl), (extract_log _ _ _ _ _ E)|exact Hin].
  clear Hin. destruct H as (p & w4 & l4 & k6 & Hp & H & -> & Hin).
  destruct (negb (truthy p)) eqn:Tp; [exfalso; exact (ret_not_updated _ _ _ _ _ H Hin)|].
  apply negb_false_iff, truthy_inv in Tp. destruct Tp as (path & -> & _).
  destruct (extract_log _ _ _ _ _ Hp) as [_ S']. destruct (S' _ eq_refl) as [-> _].
  apply step_towards_update in H; [|
    destruct (find_chromedriver_location w4) as [[r0 w0] l0] eqn:E;
    simpl; apply (reports_exclude updated _ eq_refl), (find_log _ _ _ _ E)|exact Hin].
  clear Hin. destruct H as (loc & w5 & l5 & k7 & Hloc & H & -> & Hin).
  destruct (negb (truthy loc)) eqn:Tl; [exfalso; exact (ret_not_updated _ _ _ _ _ H Hin)|].
  apply negb_false_iff, truthy_inv in Tl. destruct Tl as (location & -> & Hne).
  destruct (find_log _ _ _ _ Hloc) as [_ S'']. rewrite (S'' _ eq_refl) in *.
  cbn [negb the_str] in H.
  apply step_towards_update in H; [|
    destruct (move_extracted_chromedriver path location w5) as [[r0 w0] l0] eqn:E;
    simpl; apply (reports_exclude updated _ eq_refl), (move_log _ _ _ _ _ _ E)|exact Hin].
  clear Hin. destruct H as (st & w6 & l6 & k8 & Hst & H & -> & Hin).
  destruct st; [|exfalso; exact (ret_not_updated _ _ _ _ _ H Hin)].
  destruct (move_log _ _ _ _ _ _ Hst) as [_ S3]. rewrite (S3 eq_refl) in *.
  unfold logger in H. inversion H; subst.
  exists version, w1, url, w2, fn, w3, path, w4, location, w5.
  repeat split; auto.
Qed.

(** X20. Conversely, when the six stages succeed in order and the located
    path is not empty, [main] returns on the host the installer left,
    with its three entries in the log. *)
Theorem update_after_all_stages
    (user_platform version url fn path location : string)
    (w w1 w2 w3 w4 w5 w' : W) :
  get_chrome_version w = (Return (Some version), w1, []) ->
  get_chromedriver_download_url version user_platform w1 = (Return (Some url), w2, []) ->
  download_chromedriver url w2 = (Return fn, w3, []) ->
  extract_zipped_file fn w3 = (Return (Some path), w4, []) ->
  find_chromedriver_location w4 = (Return (Some location), w5, []) ->
  location <> "" ->
  move_extracted_chromedriver path location w5 = (Return true, w', []) ->
  main user_platform w
  = (Return tt, w', [starting_download version user_platform; downloaded; updated]).
Proof.
  intros Hv Hu Hd Hp Hloc Hne Hst. unfold main.
  rewrite (bind_return _ _ _ _ _ Hv).
  destruct (get_chrome_version_log _ _ _ _ Hv) as [_ S].
  destruct (S _ eq_refl) as [_ Hvalid].
  rewrite (is_valid_version_nonempty _ Hvalid). cbn [negb the_str].
  rewrite (bind_return _ _ _ _ _ Hu).
  destruct (resolve_return_inv _ _ _ _ _ _ Hu) as (_ & v & E).
  assert (Tu : truthy (Some url) = true) by (rewrite E; apply truthy_rewritten).
  rewrite Tu. cbn [negb the_str].
  pose proof (resolved_download_truthy _ _ _ _ _ _ _ _ _ _ Hu Hd) as Tf.
  destruct (extract_log _ _ _ _ _ Hp) as [_ S']. destruct (S' _ eq_refl) as [_ Tp].
  assert (Tl : truthy (Some location) = true) by (destruct location; [congruence|reflexivity]).
  unfold bind at 1. unfold logger at 1.
  rewrite (bind_return _ _ _ _ _ Hd), Tf. cbn [negb the_str].
  unfold bind at 1. unfold logger at 1.
  rewrite (bind_return _ _ _ _ _ Hp), Tp. cbn [negb the_str].
  rewrite (bind_return _ _ _ _ _ Hloc), Tl. cbn [negb the_str].
  rewrite (bind_return _ _ _ _ _ Hst). reflexivity.
Qed.

(** X6. When the first four stages have succeeded and [which] exits with
    code 0 but prints only whitespace, [find_chromedriver_location]
    returns the empty path without a report, and [main] stops there: it
    returns on the host the lookup left, the installer is not run, and
    the log holds the two entries of [main] and no report of a failure. *)
Theorem blank_lookup_stops_main_silently
    (user_platform version url fn path : string)
    (w w1 w2 w3 w4 w5 : W) (p : completed_process) :
  get_chrome_version w = (Return (Some version), w1, []) ->
  get_chromedriver_download_url version user_platform w1 = (Return (Some url), w2, []) ->
  download_chromedriver url w2 = (Return fn, w3, []) ->
  extract_zipped_file fn w3 = (Return (Some path), w4, []) ->
  spawn ["which"; "chromedriver"] false w4 = (Return p, w5) ->
  returncode p = 0%Z ->
  PyStr.all_chars PyStr.isspace (stdout p) = true ->
  find_chromedriver_location w4 = (Return (Some ""), w5, [])
  /\ main user_platform w
     = (Return tt, w5, [starting_download version user_platform; downloaded]).
Proof.
  intros Hv Hu Hd Hp Hs Hrc Hblank.
  assert (Hloc : find_chromedriver_location w4 = (Return (Some ""), w5, [])).
  { rewrite find_chromedriver_location_cases, Hs, Hrc, (strip_blank _ Hblank).
    reflexivity. }
  split; [exact Hloc|]. unfold main.
  rewrite (bind_return _ _ _ _ _ Hv).
  destruct (get_chrome_version_log _ _ _ _ Hv) as [_ S].
  destruct (S _ eq_refl) as [_ Hvalid].
  rewrite (is_valid_version_nonempty _ Hvalid). cbn [negb the_str].
  rewrite (bind_return _ _ _ _ _ Hu).
  destruct (resolve_return_inv _ _ _ _ _ _ Hu) as (_ & v & E).
  assert (Tu : truthy (Some url) = true) by (rewrite E; apply truthy_rewritten).
  rewrite Tu. cbn [negb the_str].
  pose proof (resolved_download_truthy _ _ _ _ _ _ _ _ _ _ Hu Hd) as Tf.
  destruct (extract_log _ _ _ _ _ Hp) as [_ S']. destruct (S' _ eq_refl) as [_ Tp].
  unfold bind at 1. unfold logger at 1.
  rewrite (bind_return _ _ _ _ _ Hd), Tf. cbn [negb the_str].
  unfold bind at 1. unfold logger at 1.
  rewrite (bind_return _ _ _ _ _ Hp), Tp. cbn [negb the_str].
  rewrite (bind_return _ _ _ _ _ Hloc). reflexivity.
Qed.

End Pipeline.

Lemma update_only_after_all_stages_witness :
  In updated (snd (main USER_PLATFORM host123))
  /\ exists version w1 url w2 fn w3 path w4 location w5,
      get_chrome_version host123 = (Return (Some version), w1, [])
      /\ get_chromedriver_download_url version USER_PLATFORM w1
         = (Return (Some url), w2, [])
      /\ download_chromedriver url w2 = (Return fn, w3, [])
      /\ extract_zipped_file fn w3 = (Return (Some path), w4, [])
      /\ find_chromedriver_location w4 = (Return (Some location), w5, [])
      /\ location <> ""
      /\ move_extracted_chromedriver path location w5
         = (Return true, snd (fst (main USER_PLATFORM host123)), [])
      /\ Return tt = Return tt
      /\ snd (main USER_PLATFORM host123)
         = [starting_download version USER_PLATFORM; downloaded; updated].
Proof.
  assert (Hin : In updated (snd (main USER_PLATFORM host123))).
  { vm_compute. right. right. left. reflexivity. }
  split; [exact Hin|].
  apply (update_only_after_all_stages USER_PLATFORM host123
           (snd (fst (main USER_PLATFORM host123))) (Return tt)
           (snd (main USER_PLATFORM host123))); [|exact Hin].
  vm_compute. reflexivity.
Defined.

Lemma update_after_all_stages_witness :
  exists w',
    main USER_PLATFORM host123
    = (Return tt, w',
       [starting_download "123.0.6312.58" USER_PLATFORM; downloaded; updated]).
Proof.
  eexists.
  eapply (update_after_all_stages USER_PLATFORM "123.0.6312.58"
            "https://x/123.0.0.0/chromedriver-linux64.zip" "chromedriver-linux64.zip"
            "chromedriver-linux64/chromedriver" "/usr/local/bin/chromedriver" host123).
  - vm_compute. reflexivity.
  - vm_compute. reflexivity.
  - vm_compute. reflexivity.
  - vm_compute. reflexivity.
  - vm_compute. reflexivity.
  - discriminate.
  - vm_compute. reflexivity.
Defined.

Lemma rewritten_url_no_slash_witness :
  rewritten_url "linux64" "chrome-linux64.zip" = "/chromedriver-linux64.zip".
Proof. apply rewritten_url_no_slash. reflexivity. Defined.

Lemma blank_lookup_stops_main_silently_witness :
  exists w5,
    find_chromedriver_location
      (snd (fst (extract_zipped_file "chromedriver-linux64.zip"
                   (snd (fst (download_chromedriver
                                "https://x/123.0.0.0/chromedriver-linux64.zip"
                                host_blank_lookup))))))
    = (Return (Some ""), w5, [])
    /\ main USER_PLATFORM host_blank_lookup
       = (Return tt, w5, [starting_download "123.0.6312.58" USER_PLATFORM; downloaded]).
Proof.
  eexists.
  eapply (blank_lookup_stops_main_silently USER_PLATFORM "123.0.6312.58"
            "https://x/123.0.0.0/chromedriver-linux64.zip" "chromedriver-linux64.zip"
            "chromedriver-linux64/chromedriver" host_blank_lookup)
    with (p := mk_completed 0 (String "010" "") "").
  - vm_compute. reflexivity.
  - vm_compute. reflexivity.
  - vm_compute. reflexivity.
  - vm_compute. reflexivity.
  - vm_compute. reflexivity.
  - reflexivity.
  - reflexivity.
Defined.
